(** * Squarify: canvas squaring and colour keying of [app.py]

    A shallow embedding of [squarify_image] and [add_transparency] together
    with the widget state they read and write, the image operations of PIL
    they call and the float arithmetic of numpy they rely on. *)

From Stdlib Require Import ZArith List String Ascii Bool Lia Floats DecimalString.
Import ListNotations.

Local Open Scope string_scope.
Local Open Scope Z_scope.

(** ** numpy: float64 arithmetic and the casts used on write-out *)

Module Np.

(** [np.array(..., dtype=np.ubyte)]: a channel is held modulo 256. *)
Definition ubyte (z : Z) : Z := z mod 256.

(** An int64 as a float64 (exact below 2^53). *)
Definition of_int (z : Z) : float :=
  if z <? 0 then (- PrimFloat.of_uint63 (Uint63.of_Z (- z)))%float
  else PrimFloat.of_uint63 (Uint63.of_Z z).

(** [np.array(..., dtype=np.ubyte) / 255.0] on one channel. *)
Definition normalize (k : Z) : float := (of_int (ubyte k) / 255)%float.

(** [np.array(ints) / 255.0] on one component of a colour tuple. *)
Definition scale (z : Z) : float := (of_int z / 255)%float.

Definition int64_min : Z := - 2 ^ 63.

(** [.astype(int)]: the C cast of a float64 to int64. The fraction is dropped
    (the magnitude is shifted right by the negated exponent); nan, the
    infinities and magnitudes that do not fit give the smallest int64. *)
Definition astype_int (x : float) : Z :=
  match Prim2SF x with
  | S754_zero _ => 0
  | S754_finite s m e =>
      let mag := if 0 <=? e then Z.shiftl (Zpos m) e else Z.shiftr (Zpos m) (- e) in
      if 2 ^ 63 <=? mag then int64_min else if s then - mag else mag
  | S754_infinity _ | S754_nan => int64_min
  end.

(** [np.ubyte((x * 255).astype(int))]: one channel as written out. *)
Definition quantize (x : float) : Z := ubyte (astype_int (x * 255)%float).

(** [np.abs]. *)
Definition fabs (x : float) : float := PrimFloat.abs x.

(** One step of the [np.max] reduction: a nan on the left is kept. *)
Definition fmax (a b : float) : float :=
  if (PrimFloat.leb b a || negb (PrimFloat.eqb a a))%bool then a else b.

(** Rounding to the nearest integer (halves away from zero), the write-out the
    specification asks for; kept apart from [astype_int] to compare the two. *)
Definition spec_round_nearest (x : float) : Z :=
  match Prim2SF x with
  | S754_zero _ => 0
  | S754_finite s m e =>
      let mag := if 0 <=? e then Z.shiftl (Zpos m) e
                 else Z.shiftr (Zpos m + 2 ^ (- e - 1)) (- e) in
      if s then - mag else mag
  | S754_infinity _ | S754_nan => int64_min
  end.

End Np.

(** ** str: the formatting and parsing the code does on colours and sizes *)

Module Str.

Definition hex_digit (d : Z) : ascii :=
  if d <? 10 then ascii_of_nat (Z.to_nat (48 + d)) else ascii_of_nat (Z.to_nat (87 + d)).

Fixpoint hex_digits (fuel : nat) (z : Z) (acc : string) : string :=
  match fuel with
  | O => acc
  | S fuel' =>
      let acc' := String (hex_digit (z mod 16)) acc in
      if z <? 16 then acc' else hex_digits fuel' (z / 16) acc'
  end.

(** [format(z, "x")] for a non-negative [z]. *)
Definition hex (z : Z) : string := hex_digits (S (Z.to_nat (Z.log2 z))) z "".

(** [format(z, "02x")]: lower-case hexadecimal, zero-filled to two characters;
    a negative number carries its sign and is already two characters wide. *)
Definition format_02x (z : Z) : string :=
  if z <? 0 then String "-" (hex (- z))
  else if z <? 16 then String "0" (hex z) else hex z.

(** [str(z)] of an int. *)
Definition str (z : Z) : string := NilZero.string_of_int (Z.to_int z).

Definition lower_ascii (c : ascii) : ascii :=
  let n := Z.of_nat (nat_of_ascii c) in
  if (65 <=? n) && (n <=? 90) then ascii_of_nat (Z.to_nat (n + 32)) else c.

Definition upper_ascii (c : ascii) : ascii :=
  let n := Z.of_nat (nat_of_ascii c) in
  if (97 <=? n) && (n <=? 122) then ascii_of_nat (Z.to_nat (n - 32)) else c.

Fixpoint map_string (f : ascii -> ascii) (s : string) : string :=
  match s with
  | EmptyString => EmptyString
  | String c s' => String (f c) (map_string f s')
  end.

Definition lower : string -> string := map_string lower_ascii.
Definition upper : string -> string := map_string upper_ascii.

(** The value of one character of [[a-f0-9]]. *)
Definition hex_value (c : ascii) : option Z :=
  let n := Z.of_nat (nat_of_ascii c) in
  if (48 <=? n) && (n <=? 57) then Some (n - 48)
  else if (97 <=? n) && (n <=? 102) then Some (n - 87)
  else None.

(** [int(s, 16)] of two characters of [[a-f0-9]]. *)
Definition int16 (hi lo : ascii) : option Z :=
  match hex_value hi, hex_value lo with
  | Some h, Some l => Some (16 * h + l)
  | _, _ => None
  end.

End Str.

(** ** Python exceptions and the widget state *)

Inductive exn : Type :=
| ValueError (msg : string)
| IndexError (msg : string).

Inductive result (A : Type) : Type :=
| Ok (a : A)
| Raise (e : exn).
Arguments Ok {A} a.
Arguments Raise {A} e.

(** [pn.widgets.Checkbox]: the parameters of the widget the code touches. *)
Record Checkbox : Type := mkCheckbox { value : bool; disabled : bool }.

(** [bool(w)] of a widget object. The widget classes define neither
    [__bool__] nor [__len__], so Python takes every instance for true,
    whatever its [value]. *)
Definition truthy (w : Checkbox) : bool := true.

(** [max_static_text.value] starts as the text N/A and later holds an int. *)
Inductive static_value : Type :=
| Text (s : string)
| Int (z : Z).

(** The module-level widgets and [pn.state.notifications]. *)
Record Widgets : Type := mkWidgets {
  input_card_title : string;
  output_card_title : string;
  max_static_text_value : static_value;
  size_spinner_value : Z;
  color_picker_value : string;
  detect_checkbox : Checkbox;
  match_checkbox : Checkbox;
  notifications : list string
}.

Definition set_input_card_title (t : string) (w : Widgets) : Widgets :=
  mkWidgets t (output_card_title w) (max_static_text_value w) (size_spinner_value w)
            (color_picker_value w) (detect_checkbox w) (match_checkbox w) (notifications w).

Definition set_output_card_title (t : string) (w : Widgets) : Widgets :=
  mkWidgets (input_card_title w) t (max_static_text_value w) (size_spinner_value w)
            (color_picker_value w) (detect_checkbox w) (match_checkbox w) (notifications w).

Definition set_max_static_text_value (v : static_value) (w : Widgets) : Widgets :=
  mkWidgets (input_card_title w) (output_card_title w) v (size_spinner_value w)
            (color_picker_value w) (detect_checkbox w) (match_checkbox w) (notifications w).

Definition set_size_spinner_value (v : Z) (w : Widgets) : Widgets :=
  mkWidgets (input_card_title w) (output_card_title w) (max_static_text_value w) v
            (color_picker_value w) (detect_checkbox w) (match_checkbox w) (notifications w).

Definition set_color_picker_value (v : string) (w : Widgets) : Widgets :=
  mkWidgets (input_card_title w) (output_card_title w) (max_static_text_value w)
            (size_spinner_value w) v (detect_checkbox w) (match_checkbox w) (notifications w).

(** [pn.state.notifications.info(msg, ...)]: one more notification. *)
Definition notify_info (msg : string) (w : Widgets) : Widgets :=
  mkWidgets (input_card_title w) (output_card_title w) (max_static_text_value w)
            (size_spinner_value w) (color_picker_value w) (detect_checkbox w)
            (match_checkbox w) (notifications w ++ [msg]).

(** The widgets as [app.py] creates them. *)
Definition initial_widgets : Widgets :=
  mkWidgets "Input resolution: N/A" "Output resolution: N/A" (Text "N/A") 500
            "#FFFFFF" (mkCheckbox false true) (mkCheckbox false true) [].

(** A computation over the widgets that may raise: what was written before an
    exception stays written. *)
Definition M (A : Type) : Type := Widgets -> result A * Widgets.

Definition ret {A} (a : A) : M A := fun w => (Ok a, w).

Definition bind {A B} (m : M A) (k : A -> M B) : M B :=
  fun w => match m w with
           | (Ok a, w') => k a w'
           | (Raise e, w') => (Raise e, w')
           end.

Definition gets {A} (f : Widgets -> A) : M A := fun w => (Ok (f w), w).
Definition modify (f : Widgets -> Widgets) : M unit := fun w => (Ok tt, f w).
Definition lift {A} (r : result A) : M A := fun w => (r, w).

Notation "x <- m ;; k" := (bind m (fun x => k))
  (at level 61, m at next level, right associativity).
Notation "m ;;; k" := (bind m (fun _ => k))
  (at level 61, right associativity).

(** ** PIL: images, conversion, canvas, paste, resize, colour strings *)

Definition rgba : Type := (Z * Z * Z * Z)%type.
Definition frgba : Type := (float * float * float * float)%type.

(** A pixel buffer: rows from top to bottom, each from left to right, as
    [np.array(image)] lays it out ([array[y, x]]). *)
Definition buffer (A : Type) : Type := list (list A).

(** [image.info["transparency"]] of a palette image, when it is there: one
    index that is transparent, or an alpha for the first entries of the
    palette. *)
Inductive palette_transparency : Type :=
| NoTransparency
| TransparentIndex (index : Z)
| PaletteAlphas (alphas : list Z).

(** A decoded image with the band layout of its mode and the transparency a
    file can carry beside the bands ([image.info["transparency"]]). The modes
    covered are grey (L), colour (RGB), each alone or with one colour
    declared transparent, palette (P) and colour with alpha (RGBA); a decoded
    image has at least one pixel. *)
Inductive Image : Type :=
| ImageL (data : buffer Z)
| ImageRGB (data : buffer (Z * Z * Z))
| ImageRGBA (data : buffer rgba)
| ImageLt (data : buffer Z) (transparency : Z)
| ImageRGBt (data : buffer (Z * Z * Z)) (transparency : Z * Z * Z)
| ImageP (data : buffer Z) (palette : list (Z * Z * Z))
         (transparency : palette_transparency).

Module Pil.

(** [(width, height)] of a buffer. *)
Definition buffer_size {A} (d : buffer A) : Z * Z :=
  (Z.of_nat (List.length (hd [] d)), Z.of_nat (List.length d)).

(** [image.size]. *)
Definition size (im : Image) : Z * Z :=
  match im with
  | ImageL d => buffer_size d
  | ImageRGB d => buffer_size d
  | ImageRGBA d => buffer_size d
  | ImageLt d _ => buffer_size d
  | ImageRGBt d _ => buffer_size d
  | ImageP d _ _ => buffer_size d
  end.

(** The alpha that loading a palette image gives to the entry [index]:
    entries are opaque unless the transparency of the image says otherwise. *)
Definition palette_alpha (transparency : palette_transparency) (index : Z) : Z :=
  match transparency with
  | NoTransparency => 255
  | TransparentIndex t => if index =? t then 0 else 255
  | PaletteAlphas alphas => nth (Z.to_nat index) alphas 255
  end.

(** [image.convert("RGBA")]: grey is copied to the three colour bands and a
    palette index is replaced by its entry (black past the end of the
    palette). A mode without an alpha band becomes opaque, except where the
    image carries transparency: the pixels of the colour declared
    transparent, and the palette entries with an alpha, get that alpha. *)
Definition convert_RGBA (im : Image) : buffer rgba :=
  match im with
  | ImageL d => map (map (fun l => (l, l, l, 255))) d
  | ImageRGB d => map (map (fun '(r, g, b) => (r, g, b, 255))) d
  | ImageRGBA d => d
  | ImageLt d t => map (map (fun l => (l, l, l, if l =? t then 0 else 255))) d
  | ImageRGBt d (tr, tg, tb) =>
      map (map (fun '(r, g, b) =>
                  (r, g, b, if (r =? tr) && (g =? tg) && (b =? tb) then 0 else 255))) d
  | ImageP d palette transparency =>
      map (map (fun i =>
                  let '(r, g, b) := nth (Z.to_nat i) palette (0, 0, 0) in
                  (r, g, b, palette_alpha transparency i))) d
  end.

(** The pixel at column [x] of row [y], when there is one. *)
Definition getpixel {A} (d : buffer A) (x y : Z) : option A :=
  if (x <? 0) || (y <? 0) then None
  else match nth_error d (Z.to_nat y) with
       | Some row => nth_error row (Z.to_nat x)
       | None => None
       end.

(** [Image.new("RGBA", (w, h), color)]. *)
Definition new (w h : Z) (color : rgba) : result (buffer rgba) :=
  if (w <? 0) || (h <? 0) then Raise (ValueError "Width and height must be >= 0")
  else Ok (repeat (repeat color (Z.to_nat w)) (Z.to_nat h)).

Fixpoint imap_from {A B} (i : Z) (f : Z -> A -> B) (l : list A) : list B :=
  match l with
  | [] => []
  | a :: l' => f i a :: imap_from (i + 1) f l'
  end.

(** [dest.paste(src, (cx, cy))] without a mask: every pixel of the canvas that
    the source covers takes the source pixel as it is, alpha included. *)
Definition paste (dest src : buffer rgba) (cx cy : Z) : buffer rgba :=
  imap_from 0 (fun y row =>
    imap_from 0 (fun x p =>
      match getpixel src (x - cx) (y - cy) with
      | Some q => q
      | None => p
      end) row) dest.

Definition zseq (n : Z) : list Z := map Z.of_nat (seq 0 (Z.to_nat n)).

(** The first hexadecimal forms of [ImageColor.getrgb], on the lower-cased
    string: [#rgb] and [#rrggbb]. *)
Definition getrgb_hex (color : string) : option (Z * Z * Z) :=
  match color with
  | String c0 digits =>
      if negb (Ascii.eqb c0 "#") then None
      else match digits with
      | String r (String g (String b EmptyString)) =>
          match Str.int16 r r, Str.int16 g g, Str.int16 b b with
          | Some vr, Some vg, Some vb => Some (vr, vg, vb)
          | _, _, _ => None
          end
      | String r1 (String r2 (String g1 (String g2
          (String b1 (String b2 EmptyString))))) =>
          match Str.int16 r1 r2, Str.int16 g1 g2, Str.int16 b1 b2 with
          | Some vr, Some vg, Some vb => Some (vr, vg, vb)
          | _, _, _ => None
          end
      | _ => None
      end
  | EmptyString => None
  end.

End Pil.

Section App.

(** The resampling filter of [Image.resize]: the pixel of the output at
    column [x] of row [y], from the source buffer and the requested size. *)
Variable resample : buffer rgba -> Z * Z -> Z -> Z -> rgba.

(** What [ImageColor.getrgb] makes of a string that is neither [#rgb] nor
    [#rrggbb]: the colour names and the functional notations give a triple,
    anything the later arithmetic cannot take raises. *)
Variable getrgb_other : string -> result (Z * Z * Z).

(** [ImageColor.getrgb(color)]. *)
Definition getrgb (color : string) : result (Z * Z * Z) :=
  let color := Str.lower color in
  match Pil.getrgb_hex color with
  | Some c => Ok c
  | None => getrgb_other color
  end.

(** [image.resize((w, h))]: a request for the size the image already has
    returns a copy; otherwise both sides have to be positive. *)
Definition resize (d : buffer rgba) (w h : Z) : result (buffer rgba) :=
  if let '(w0, h0) := Pil.buffer_size d in (w0 =? w) && (h0 =? h) then Ok d
  else if (w <? 1) || (h <? 1) then Raise (ValueError "height and width must be > 0")
  else Ok (map (fun y => map (fun x => resample d (w, h) x y) (Pil.zseq w)) (Pil.zseq h)).

(** Lines 92-96: the transparent square canvas with the image pasted in. *)
Definition square_canvas (image : Image) : result (buffer rgba) :=
  let '(width, height) := Pil.size image in
  let max_size := Z.max width height in
  let center_x := (max_size - width) / 2 in
  let center_y := (max_size - height) / 2 in
  match Pil.new max_size max_size (255, 255, 255, 0) with
  | Ok square_image => Ok (Pil.paste square_image (Pil.convert_RGBA image) center_x center_y)
  | Raise e => Raise e
  end.

(** [squarify_image(image)]. *)
Definition squarify_image (image : Image) : M Image :=
  let '(width, height) := Pil.size image in
  modify (set_input_card_title
            ("Input resolution: " ++ Str.str width ++ "x" ++ Str.str height)) ;;;
  let max_size := Z.max width height in
  modify (set_max_static_text_value (Int max_size)) ;;;
  desired_size <- gets size_spinner_value ;;
  desired_size <- (if max_size <? desired_size
                   then modify (set_size_spinner_value max_size) ;;; ret max_size
                   else ret desired_size) ;;
  modify (set_output_card_title
            ("Output resolution: " ++ Str.str desired_size ++ "x" ++ Str.str desired_size)) ;;;
  square_image <- lift (square_canvas image) ;;
  resized <- lift (resize square_image desired_size desired_size) ;;
  ret (ImageRGBA resized).

(** Lines 122-125: the mask of the exact colour and of what is transparent
    already, written over the alpha band. *)
Definition exact_pixel (target_color : float * float * float) (p : frgba) : frgba :=
  let '(r, g, b, a) := p in
  let '(t0, t1, t2) := target_color in
  let mask := (PrimFloat.eqb r t0 && PrimFloat.eqb g t1 && PrimFloat.eqb b t2)%bool in
  let alpha := if (mask || PrimFloat.eqb a 0)%bool then 0%float else 1%float in
  (r, g, b, alpha).

(** Lines 127-139: the largest channel distance as the alpha band. *)
Definition fade_pixel (target_color : float * float * float) (p : frgba) : frgba :=
  let '(r, g, b, _) := p in
  let '(t0, t1, t2) := target_color in
  let alpha := Np.fmax (Np.fmax (Np.fabs (r - t0)) (Np.fabs (g - t1))) (Np.fabs (b - t2)) in
  (r, g, b, alpha).

Definition normalize_pixel (p : rgba) : frgba :=
  let '(r, g, b, a) := p in
  (Np.normalize r, Np.normalize g, Np.normalize b, Np.normalize a).

Definition quantize_pixel (p : frgba) : rgba :=
  let '(r, g, b, a) := p in
  (Np.quantize r, Np.quantize g, Np.quantize b, Np.quantize a).

(** Lines 111-118: the colour of the top left corner goes to the colour
    picker and to a notification. *)
Definition detect_color (image_array : buffer frgba) : M unit :=
  match Pil.getpixel image_array 0 0 with
  | None =>
      lift (Raise (IndexError
                     match image_array with
                     | [] => "index 0 is out of bounds for axis 0 with size 0"
                     | _ :: _ => "index 0 is out of bounds for axis 1 with size 0"
                     end))
  | Some (fr, fg, fb, _) =>
      let r := Np.astype_int (fr * 255)%float in
      let g := Np.astype_int (fg * 255)%float in
      let b := Np.astype_int (fb * 255)%float in
      modify (set_color_picker_value
                ("#" ++ Str.format_02x r ++ Str.format_02x g ++ Str.format_02x b)) ;;;
      value <- gets color_picker_value ;;
      modify (notify_info
                ("Detected background color: " ++ Str.upper value ++ " ("
                 ++ Str.str r ++ ", " ++ Str.str g ++ ", " ++ Str.str b ++ ")"))
  end.

(** [add_transparency(image)]. *)
Definition add_transparency (image : Image) : M Image :=
  let image_array := map (map normalize_pixel) (Pil.convert_RGBA image) in
  detect <- gets (fun w => value (detect_checkbox w)) ;;
  (if detect then detect_color image_array else ret tt) ;;;
  picked <- gets color_picker_value ;;
  rgb <- lift (getrgb picked) ;;
  let '(tr, tg, tb) := rgb in
  let target_color := (Np.scale tr, Np.scale tg, Np.scale tb) in
  checkbox <- gets match_checkbox ;;
  let image_array_rgba :=
    if truthy checkbox
    then map (map (exact_pixel target_color)) image_array
    else map (map (fade_pixel target_color)) image_array in
  ret (ImageRGBA (map (map quantize_pixel) image_array_rgba)).

End App.

(** A nearest-neighbour filter and an empty table of colour names, to run the
    functions on examples. *)
Definition nearest (d : buffer rgba) (size : Z * Z) (x y : Z) : rgba :=
  let '(w0, h0) := Pil.buffer_size d in
  let '(w, h) := size in
  match Pil.getpixel d (x * w0 / w) (y * h0 / h) with
  | Some p => p
  | None => (0, 0, 0, 0)
  end.

Definition no_names (color : string) : result (Z * Z * Z) :=
  Raise (ValueError "unknown color specifier").

(** ** Specification-level definitions and example data *)

Definition is_byte (k : Z) : Prop := 0 <= k <= 255.

Definition byte_pixel (p : rgba) : Prop :=
  let '(r, g, b, a) := p in is_byte r /\ is_byte g /\ is_byte b /\ is_byte a.

(** Every channel of every pixel is a byte, as in a decoded image. *)
Definition byte_buffer (d : buffer rgba) : Prop :=
  Forall (Forall byte_pixel) d.

Definition two_hex_digits (k : Z) : bool :=
  match Str.format_02x k with
  | String hi (String lo EmptyString) =>
      Ascii.eqb (Str.lower_ascii hi) hi && Ascii.eqb (Str.lower_ascii lo) lo
      && match Str.int16 hi lo with
         | Some v => v =? k
         | None => false
         end
  | _ => false
  end.

(** The string the detection writes to the colour picker. *)
Definition hex_color (r g b : Z) : string :=
  "#" ++ Str.format_02x r ++ Str.format_02x g ++ Str.format_02x b.

(** Exact keying on bytes, as the specification words it: alpha is 0 where the
    colour is the used colour or the pixel is transparent already, 255
    elsewhere; the colour bands are kept. *)
Definition spec_exact_key (used : Z * Z * Z) (p : rgba) : rgba :=
  let '(r, g, b, a) := p in
  let '(tr, tg, tb) := used in
  (r, g, b, if ((r =? tr) && (g =? tg) && (b =? tb)) || (a =? 0) then 0 else 255).

(** Fuzzy keying on bytes, as the docstring and the specification word it:
    alpha is the largest channel distance. *)
Definition spec_fade_key (used : Z * Z * Z) (p : rgba) : rgba :=
  let '(r, g, b, _) := p in
  let '(tr, tg, tb) := used in
  (r, g, b, Z.max (Z.max (Z.abs (r - tr)) (Z.abs (g - tg))) (Z.abs (b - tb))).

Definition scale_color (used : Z * Z * Z) : float * float * float :=
  let '(tr, tg, tb) := used in (Np.scale tr, Np.scale tg, Np.scale tb).

Definition byte_color (used : Z * Z * Z) : Prop :=
  let '(tr, tg, tb) := used in is_byte tr /\ is_byte tg /\ is_byte tb.

(** Keying by colour alone, for pixels that are opaque. *)
Definition spec_color_key (used : Z * Z * Z) (p : rgba) : rgba :=
  let '(r, g, b, _) := p in
  let '(tr, tg, tb) := used in
  (r, g, b, if (r =? tr) && (g =? tg) && (b =? tb) then 0 else 255).

(** Whether the mode of the image has an alpha band. *)
Definition has_alpha_band (image : Image) : bool :=
  match image with
  | ImageRGBA _ => true
  | ImageL _ | ImageRGB _ | ImageLt _ _ | ImageRGBt _ _ | ImageP _ _ _ => false
  end.

(** Whether the image carries transparency beside its bands
    (["transparency" in image.info]). *)
Definition has_transparency (image : Image) : bool :=
  match image with
  | ImageLt _ _ | ImageRGBt _ _ => true
  | ImageP _ _ NoTransparency => false
  | ImageP _ _ _ => true
  | ImageL _ | ImageRGB _ | ImageRGBA _ => false
  end.

Definition opaque (p : rgba) : Prop := snd p = 255.

(** Widgets of a session with the transparency boxes enabled. *)
Definition widgets_with (color : string) (detect exact : bool) : Widgets :=
  mkWidgets "Input resolution: N/A" "Output resolution: N/A" (Text "N/A") 500
            color (mkCheckbox detect false) (mkCheckbox exact false) [].

Definition white_black : Image := ImageRGB [[(255, 255, 255); (0, 0, 0)]].

Definition grey_and_clear : Image := ImageRGBA [[(128, 128, 128, 255); (0, 0, 0, 0)]].

Definition corner_10_20_30 : Image :=
  ImageRGBA [[(10, 20, 30, 7); (128, 128, 128, 255)]; [(10, 20, 30, 255); (9, 9, 9, 9)]].

Ltac byte_facts :=
  repeat first [ constructor | unfold is_byte, byte_pixel, byte_color; lia ].

(** A buffer of [h] rows of [w] pixels each. *)
Definition shaped {A} (w h : nat) (d : buffer A) : Prop :=
  List.length d = h /\ Forall (fun row => List.length row = w) d.

(** Every row is as long as the first. *)
Definition rectangular {A} (d : buffer A) : Prop :=
  shaped (List.length (hd [] d)) (List.length d) d.

Definition transparent_white : rgba := (255, 255, 255, 0).

Definition blank (n : nat) : buffer rgba := repeat (repeat transparent_white n) n.

(** What the canvas holds at a place: the source pixel if the source covers
    it, transparent white if not. *)
Definition spec_canvas_pixel (src : buffer rgba) (cx cy x y : Z) : rgba :=
  match Pil.getpixel src (x - cx) (y - cy) with
  | Some q => q
  | None => transparent_white
  end.

(** The side the output is given: the desired size, or the longer side of
    the image if that is smaller. *)
Definition effective_size (max_size desired_size : Z) : Z :=
  if max_size <? desired_size then max_size else desired_size.

(** The widgets after [squarify_image] has run on a [width] x [height] image. *)
Definition squarify_widgets (width height : Z) (w : Widgets) : Widgets :=
  let max_size := Z.max width height in
  let desired_size := effective_size max_size (size_spinner_value w) in
  let w1 := set_max_static_text_value (Int max_size)
              (set_input_card_title
                 ("Input resolution: " ++ Str.str width ++ "x" ++ Str.str height) w) in
  let w2 := if max_size <? size_spinner_value w then set_size_spinner_value max_size w1 else w1 in
  set_output_card_title
    ("Output resolution: " ++ Str.str desired_size ++ "x" ++ Str.str desired_size) w2.

Definition one_pixel : Image := ImageRGBA [[(1, 2, 3, 4)]].

Definition tall_image : Image :=
  ImageRGB [[(1, 2, 3)]; [(4, 5, 6)]; [(7, 8, 9)]; [(1, 1, 1)]].

Definition wide_image : Image :=
  ImageRGBA [[(10, 20, 30, 7); (128, 128, 128, 255); (1, 2, 3, 0)];
             [(10, 20, 30, 255); (9, 9, 9, 9); (255, 255, 255, 128)]].

(** ** The pipeline of [process_url] and the widget links *)

(** What a call gives inside the [try] of [process_url]: a value, or the text
    of the exception ([str(exc)]), which is all the handler uses. *)
Inductive outcome (A : Type) : Type :=
| Done (a : A)
| Failed (message : string).
Arguments Done {A} a.
Arguments Failed {A} message.

(** [str(exc)] of the exceptions of the core. *)
Definition str_exn (e : exn) : string :=
  match e with
  | ValueError msg => msg
  | IndexError msg => msg
  end.

(** The widgets of the page: those the core touches, and those only
    [process_url] and the links touch, with the error notifications of
    [pn.state.notifications] beside the informative ones. *)
Record App : Type := mkApp {
  widgets : Widgets;
  text_input_value_input : string;
  submit_button_disabled : bool;
  submit_button_loading : bool;
  transparency_checkbox_value : bool;
  color_picker_disabled : bool;
  input_png_object : option Image;
  input_png_loading : bool;
  output_png_object : option Image;
  output_png_loading : bool;
  file_download_file : option (list Byte.byte);
  file_download_disabled : bool;
  error_notifications : list string
}.

Definition set_widgets (v : Widgets) (a : App) : App :=
  mkApp v (text_input_value_input a) (submit_button_disabled a) (submit_button_loading a)
        (transparency_checkbox_value a) (color_picker_disabled a) (input_png_object a)
        (input_png_loading a) (output_png_object a) (output_png_loading a)
        (file_download_file a) (file_download_disabled a) (error_notifications a).

Definition set_text_input_value_input (v : string) (a : App) : App :=
  mkApp (widgets a) v (submit_button_disabled a) (submit_button_loading a)
        (transparency_checkbox_value a) (color_picker_disabled a) (input_png_object a)
        (input_png_loading a) (output_png_object a) (output_png_loading a)
        (file_download_file a) (file_download_disabled a) (error_notifications a).

Definition set_submit_button_disabled (v : bool) (a : App) : App :=
  mkApp (widgets a) (text_input_value_input a) v (submit_button_loading a)
        (transparency_checkbox_value a) (color_picker_disabled a) (input_png_object a)
        (input_png_loading a) (output_png_object a) (output_png_loading a)
        (file_download_file a) (file_download_disabled a) (error_notifications a).

Definition set_submit_button_loading (v : bool) (a : App) : App :=
  mkApp (widgets a) (text_input_value_input a) (submit_button_disabled a) v
        (transparency_checkbox_value a) (color_picker_disabled a) (input_png_object a)
        (input_png_loading a) (output_png_object a) (output_png_loading a)
        (file_download_file a) (file_download_disabled a) (error_notifications a).

Definition set_transparency_checkbox_value (v : bool) (a : App) : App :=
  mkApp (widgets a) (text_input_value_input a) (submit_button_disabled a)
        (submit_button_loading a) v (color_picker_disabled a) (input_png_object a)
        (input_png_loading a) (output_png_object a) (output_png_loading a)
        (file_download_file a) (file_download_disabled a) (error_notifications a).

Definition set_color_picker_disabled (v : bool) (a : App) : App :=
  mkApp (widgets a) (text_input_value_input a) (submit_button_disabled a)
        (submit_button_loading a) (transparency_checkbox_value a) v (input_png_object a)
        (input_png_loading a) (output_png_object a) (output_png_loading a)
        (file_download_file a) (file_download_disabled a) (error_notifications a).

Definition set_input_png_object (v : option Image) (a : App) : App :=
  mkApp (widgets a) (text_input_value_input a) (submit_button_disabled a)
        (submit_button_loading a) (transparency_checkbox_value a) (color_picker_disabled a)
        v (input_png_loading a) (output_png_object a) (output_png_loading a)
        (file_download_file a) (file_download_disabled a) (error_notifications a).

Definition set_input_png_loading (v : bool) (a : App) : App :=
  mkApp (widgets a) (text_input_value_input a) (submit_button_disabled a)
        (submit_button_loading a) (transparency_checkbox_value a) (color_picker_disabled a)
        (input_png_object a) v (output_png_object a) (output_png_loading a)
        (file_download_file a) (file_download_disabled a) (error_notifications a).

Definition set_output_png_object (v : option Image) (a : App) : App :=
  mkApp (widgets a) (text_input_value_input a) (submit_button_disabled a)
        (submit_button_loading a) (transparency_checkbox_value a) (color_picker_disabled a)
        (input_png_object a) (input_png_loading a) v (output_png_loading a)
        (file_download_file a) (file_download_disabled a) (error_notifications a).

Definition set_output_png_loading (v : bool) (a : App) : App :=
  mkApp (widgets a) (text_input_value_input a) (submit_button_disabled a)
        (submit_button_loading a) (transparency_checkbox_value a) (color_picker_disabled a)
        (input_png_object a) (input_png_loading a) (output_png_object a) v
        (file_download_file a) (file_download_disabled a) (error_notifications a).

Definition set_file_download_file (v : option (list Byte.byte)) (a : App) : App :=
  mkApp (widgets a) (text_input_value_input a) (submit_button_disabled a)
        (submit_button_loading a) (transparency_checkbox_value a) (color_picker_disabled a)
        (input_png_object a) (input_png_loading a) (output_png_object a)
        (output_png_loading a) v (file_download_disabled a) (error_notifications a).

Definition set_file_download_disabled (v : bool) (a : App) : App :=
  mkApp (widgets a) (text_input_value_input a) (submit_button_disabled a)
        (submit_button_loading a) (transparency_checkbox_value a) (color_picker_disabled a)
        (input_png_object a) (input_png_loading a) (output_png_object a)
        (output_png_loading a) (file_download_file a) v (error_notifications a).

(** [pn.state.notifications.error(msg, ...)]: one more error notification. *)
Definition notify_error (msg : string) (a : App) : App :=
  mkApp (widgets a) (text_input_value_input a) (submit_button_disabled a)
        (submit_button_loading a) (transparency_checkbox_value a) (color_picker_disabled a)
        (input_png_object a) (input_png_loading a) (output_png_object a)
        (output_png_loading a) (file_download_file a) (file_download_disabled a)
        (error_notifications a ++ [msg]).

(** The page as [app.py] lays it out. *)
Definition initial_app : App :=
  mkApp initial_widgets "" true false false true None false None false None true [].

(** The body of the [try]: a computation over the page that stops at the
    first exception and keeps what was written before it. *)
Definition P (A : Type) : Type := App -> outcome A * App.

Definition pret {A} (x : A) : P A := fun a => (Done x, a).

Definition pbind {A B} (m : P A) (k : A -> P B) : P B :=
  fun a => match m a with
           | (Done x, a') => k x a'
           | (Failed msg, a') => (Failed msg, a')
           end.

Definition pgets {A} (f : App -> A) : P A := fun a => (Done (f a), a).
Definition pmodify (f : App -> App) : P unit := fun a => (Done tt, f a).
Definition plift {A} (o : outcome A) : P A := fun a => (o, a).

(** A call into the core, on the widgets the core knows. *)
Definition core {A} (m : M A) : P A :=
  fun a => match m (widgets a) with
           | (Ok x, w) => (Done x, set_widgets w a)
           | (Raise e, w) => (Failed (str_exn e), set_widgets w a)
           end.

Notation "x <-- m ;; k" := (pbind m (fun x => k))
  (at level 61, m at next level, right associativity).
Notation "m ;;;; k" := (pbind m (fun _ => k))
  (at level 61, right associativity).

Section Page.

Variable resample : buffer rgba -> Z * Z -> Z -> Z -> rgba.
Variable getrgb_other : string -> result (Z * Z * Z).

(** [urlopen(url)] followed by [response.read()]. *)
Variable urlopen_read : string -> outcome (list Byte.byte).

(** [Image.open] on the bytes read; a file that cannot be decoded is
    reported here. *)
Variable Image_open : list Byte.byte -> outcome Image.

(** [image.save(download_buf, format="PNG")] and the rewind: the bytes of
    the buffer. *)
Variable save_png : Image -> outcome (list Byte.byte).

(** Lines 156-172: the body of the [try]. *)
Definition process_url_try : P unit :=
  url <-- pgets text_input_value_input ;;
  image_content <-- plift (urlopen_read url) ;;
  image <-- plift (Image_open image_content) ;;
  pmodify (set_input_png_object (Some image)) ;;;;
  transparency <-- pgets transparency_checkbox_value ;;
  image <-- (if transparency
             then core (add_transparency getrgb_other image)
             else pret image) ;;
  image <-- core (squarify_image resample image) ;;
  pmodify (set_output_png_object (Some image)) ;;;;
  download_buf <-- plift (save_png image) ;;
  pmodify (set_file_download_file (Some download_buf)) ;;;;
  pmodify (set_file_download_disabled false).

Definition set_loading (v : bool) (a : App) : App :=
  set_output_png_loading v (set_input_png_loading v (set_submit_button_loading v a)).

(** [process_url(_)]: the three loading flags go up, the body runs, an
    exception becomes an error notification, the flags go down. *)
Definition process_url (a : App) : App :=
  let '(r, a') := process_url_try (set_loading true a) in
  let a'' := match r with
             | Done _ => a'
             | Failed msg => notify_error msg a'
             end in
  set_loading false a''.

End Page.

(** [disable_submit(target, event)]: what is written to [target.disabled]. *)
Definition disable_submit (event_new : string) : bool :=
  Nat.eqb (String.length event_new) 0.

(** [disable_transparency_widgets(target, event)]: what is written to
    [target.disabled]. *)
Definition disable_transparency_widgets (event_new : bool) : bool :=
  negb event_new.

Definition set_detect_checkbox (c : Checkbox) (w : Widgets) : Widgets :=
  mkWidgets (input_card_title w) (output_card_title w) (max_static_text_value w)
            (size_spinner_value w) (color_picker_value w) c (match_checkbox w)
            (notifications w).

Definition set_match_checkbox (c : Checkbox) (w : Widgets) : Widgets :=
  mkWidgets (input_card_title w) (output_card_title w) (max_static_text_value w)
            (size_spinner_value w) (color_picker_value w) (detect_checkbox w) c
            (notifications w).

(** What the user does to a widget that has links. *)
Inductive event : Type :=
| TypeUrl (new : string)
| CheckTransparency (new : bool)
| CheckDetect (new : bool).

(** Lines 295-305: the parameter takes its new value and, if that is a
    change, the linked callbacks run in the order the links were made. *)
Definition fire (ev : event) (a : App) : App :=
  match ev with
  | TypeUrl new =>
      if String.eqb new (text_input_value_input a) then a
      else set_submit_button_disabled (disable_submit new)
             (set_text_input_value_input new a)
  | CheckTransparency new =>
      if Bool.eqb new (transparency_checkbox_value a) then a
      else
        let a1 := set_transparency_checkbox_value new a in
        let w := widgets a1 in
        let w1 := set_detect_checkbox
                    (mkCheckbox (value (detect_checkbox w))
                                (disable_transparency_widgets new)) w in
        let w2 := set_match_checkbox
                    (mkCheckbox (value (match_checkbox w1))
                                (disable_transparency_widgets new)) w1 in
        set_color_picker_disabled (disable_transparency_widgets new) (set_widgets w2 a1)
  | CheckDetect new =>
      if Bool.eqb new (value (detect_checkbox (widgets a))) then a
      else
        let w := widgets a in
        let w1 := set_detect_checkbox (mkCheckbox new (disabled (detect_checkbox w))) w in
        set_color_picker_disabled new (set_widgets w1 a)
  end.

(** The page after a series of such events, first to last. *)
Definition fire_all (evs : list event) (a : App) : App :=
  fold_left (fun a ev => fire ev a) evs a.

(** Stand-ins for the network, the decoder and the encoder, to run the
    pipeline on examples: one address answers with a file that decodes to
    [wide_image], another with a file that does not decode, any other fails. *)
Definition example_urlopen (url : string) : outcome (list Byte.byte) :=
  if String.eqb url "http://example.org/wide.png" then Done [Byte.x89; Byte.x50; Byte.x4e; Byte.x47]
  else if String.eqb url "http://example.org/page.html" then Done [Byte.x3c; Byte.x68]
  else Failed "unknown url type".

Definition example_open (content : list Byte.byte) : outcome Image :=
  match content with
  | [Byte.x89; Byte.x50; Byte.x4e; Byte.x47] => Done wide_image
  | _ => Failed "cannot identify image file"
  end.

Definition example_save (image : Image) : outcome (list Byte.byte) :=
  Done [Byte.x89; Byte.x50; Byte.x4e; Byte.x47; Byte.x0d; Byte.x0a].

Definition app_with (url : string) (transparency : bool) (w : Widgets) : App :=
  mkApp w url false false transparency (negb transparency) None false None false None true [].

(** The links as a condition on the page: the submit button is disabled
    exactly when the address is empty, and the detect and match checkboxes
    exactly when the transparency checkbox is unchecked. *)
Definition links_hold (a : App) : Prop :=
  submit_button_disabled a = disable_submit (text_input_value_input a)
  /\ disabled (detect_checkbox (widgets a)) = negb (transparency_checkbox_value a)
  /\ disabled (match_checkbox (widgets a)) = negb (transparency_checkbox_value a).

(** A series of events a user can produce: a disabled detect checkbox is not
    clicked. *)
Fixpoint user_can (evs : list event) (a : App) : Prop :=
  match evs with
  | [] => True
  | ev :: evs' =>
      match ev with
      | CheckDetect _ => disabled (detect_checkbox (widgets a)) = false
      | TypeUrl _ | CheckTransparency _ => True
      end
      /\ user_can evs' (fire ev a)
  end.

Definition upper_reads_back (k : Z) : bool :=
  match Str.format_02x k with
  | String hi (String lo EmptyString) =>
      Ascii.eqb (Str.lower_ascii (Str.upper_ascii hi)) hi
      && Ascii.eqb (Str.lower_ascii (Str.upper_ascii lo)) lo
  | _ => false
  end.

(** One term of the maximum of lines 127-134: the distance of a channel to
    the channel of the colour. *)
Definition fade_distance (p t : Z) : float :=
  Np.fabs (Np.normalize p - Np.scale t)%float.

(** The place of a float that is zero or positive among such floats: larger
    floats have larger ranks. *)
Definition float_rank (f : spec_float) : option Z :=
  match f with
  | S754_zero _ => Some 0
  | S754_finite false m e =>
      if (Z.pos m <? 2 ^ 53) && (-1100 <? e) then Some ((e + 1100) * 2 ^ 53 + Z.pos m)
      else None
  | _ => None
  end.

(** The rank of the float (2 k - 1) / 510, half way between the distances
    of k - 1 and of k bytes. *)
Definition separator (k : Z) : Z :=
  if k <=? 0 then 0
  else match float_rank (Prim2SF (Np.of_int (2 * k - 1) / 510)%float) with
       | Some r => r
       | None => -1
       end.

Definition fade_channel_ok (p t : Z) : bool :=
  let k := Z.abs (p - t) in
  match float_rank (Prim2SF (fade_distance p t)) with
  | Some r =>
      (separator k <=? r) && (r <? separator (k + 1))
      && ((Np.quantize (fade_distance p t) =? k)
          || ((Np.quantize (fade_distance p t) =? k - 1) && (0 <? k)))
  | None => false
  end.

Definition separators_ok (k1 k2 : Z) : bool :=
  if k1 <? k2 then separator (k1 + 1) <=? separator k2 else true.

Definition square_image : Image :=
  ImageRGBA [[(1, 2, 3, 4); (5, 6, 7, 8)]; [(9, 10, 11, 12); (13, 14, 15, 16)]].

Definition empty_image : Image := ImageRGBA [].

Definition example_run : App -> App :=
  process_url nearest no_names example_urlopen example_open example_save.

(** The colour a run keys on, for an image and widgets: the colour the picker
    holds when detection is off, the colour of the pixel at (0,0) when it is
    on. *)
Definition used_color_is (other : string -> result (Z * Z * Z))
           (image : Image) (w : Widgets) (used : Z * Z * Z) : Prop :=
  (value (detect_checkbox w) = false
   /\ getrgb other (color_picker_value w) = Ok used)
  \/ (value (detect_checkbox w) = true
      /\ exists a, Pil.getpixel (Pil.convert_RGBA image) 0 0
                   = Some (fst (fst used), snd (fst used), snd used, a)).

Definition white_is_transparent : Image :=
  ImageRGBt [[(255, 255, 255); (0, 0, 0)]] (255, 255, 255).


(** ** Facts about the arithmetic *)

Lemma zseq_In (n k : Z) : 0 <= k < n -> In k (Pil.zseq n).
Proof.
  intros Hk. unfold Pil.zseq.
  replace k with (Z.of_nat (Z.to_nat k)) by lia.
  apply in_map, in_seq. lia.
Qed.

Lemma bytes_forall (f : Z -> bool) :
  forallb f (Pil.zseq 256) = true -> forall k, is_byte k -> f k = true.
Proof.
  intros Hall k Hk. rewrite forallb_forall in Hall.
  apply Hall, zseq_In. unfold is_byte in Hk. lia.
Qed.

Lemma byte_pairs_forall (f : Z -> Z -> bool) :
  forallb (fun a => forallb (f a) (Pil.zseq 256)) (Pil.zseq 256) = true ->
  forall a b, is_byte a -> is_byte b -> f a b = true.
Proof.
  intros Hall a b Ha Hb.
  apply (bytes_forall (f a)); [|exact Hb].
  apply (bytes_forall (fun a => forallb (f a) (Pil.zseq 256))); assumption.
Qed.

Lemma astype_int_normalize (k : Z) :
  is_byte k -> Np.astype_int (Np.normalize k * 255)%float = k.
Proof.
  intros Hk. apply Z.eqb_eq.
  apply (bytes_forall (fun k => Np.astype_int (Np.normalize k * 255)%float =? k)); [|exact Hk].
  vm_compute. reflexivity.
Qed.

Lemma quantize_normalize (k : Z) : is_byte k -> Np.quantize (Np.normalize k) = k.
Proof.
  intros Hk. unfold Np.quantize. rewrite astype_int_normalize by exact Hk.
  unfold Np.ubyte, is_byte in *. apply Z.mod_small. lia.
Qed.

Lemma round_nearest_normalize (k : Z) :
  is_byte k -> Np.spec_round_nearest (Np.normalize k * 255)%float = k.
Proof.
  intros Hk. apply Z.eqb_eq.
  apply (bytes_forall (fun k => Np.spec_round_nearest (Np.normalize k * 255)%float =? k));
    [|exact Hk].
  vm_compute. reflexivity.
Qed.

(** Two bytes are equal as normalised floats exactly when they are equal. *)
Lemma normalize_eqb_scale (a b : Z) :
  is_byte a -> is_byte b -> PrimFloat.eqb (Np.normalize a) (Np.scale b) = (a =? b).
Proof.
  intros Ha Hb. apply eqb_prop.
  apply (byte_pairs_forall
           (fun a b => Bool.eqb (PrimFloat.eqb (Np.normalize a) (Np.scale b)) (a =? b)));
    [|exact Ha|exact Hb].
  vm_compute. reflexivity.
Qed.

Lemma normalize_eqb_zero (a : Z) :
  is_byte a -> PrimFloat.eqb (Np.normalize a) 0 = (a =? 0).
Proof.
  intros Ha. apply eqb_prop.
  apply (bytes_forall (fun a => Bool.eqb (PrimFloat.eqb (Np.normalize a) 0) (a =? 0)));
    [|exact Ha].
  vm_compute. reflexivity.
Qed.

Lemma quantize_zero : Np.quantize 0 = 0.
Proof. vm_compute. reflexivity. Qed.

Lemma quantize_one : Np.quantize 1 = 255.
Proof. vm_compute. reflexivity. Qed.

(** Dropping the fraction: the shifted magnitude is the integer part. *)
Lemma shiftr_integer_part (m n : Z) :
  0 <= m -> 0 < n ->
  Z.shiftr m n * 2 ^ n <= m < (Z.shiftr m n + 1) * 2 ^ n.
Proof.
  intros Hm Hn. rewrite Z.shiftr_div_pow2 by lia.
  assert (Hp : 0 < 2 ^ n) by (apply Z.pow_pos_nonneg; lia).
  pose proof (Z.div_mod m (2 ^ n) ltac:(lia)) as Hdm.
  pose proof (Z.mod_pos_bound m (2 ^ n) Hp) as Hb.
  nia.
Qed.

(** ** Facts about the colour strings *)

(** A byte prints as two lower-case hexadecimal digits that read back as it. *)
Lemma format_02x_byte (k : Z) :
  is_byte k ->
  exists hi lo,
    Str.format_02x k = String hi (String lo EmptyString)
    /\ Str.lower_ascii hi = hi /\ Str.lower_ascii lo = lo
    /\ Str.int16 hi lo = Some k.
Proof.
  intros Hk.
  assert (Hc : two_hex_digits k = true).
  { apply (bytes_forall two_hex_digits); [vm_compute; reflexivity | exact Hk]. }
  unfold two_hex_digits in Hc.
  destruct (Str.format_02x k) as [|hi [|lo [|c rest]]]; try discriminate.
  exists hi, lo.
  apply andb_prop in Hc. destruct Hc as [Hc Hv].
  apply andb_prop in Hc. destruct Hc as [Hhi Hlo].
  apply Ascii.eqb_eq in Hhi. apply Ascii.eqb_eq in Hlo.
  destruct (Str.int16 hi lo) as [v|]; [|discriminate].
  apply Z.eqb_eq in Hv. subst v. repeat split; assumption.
Qed.

Lemma getrgb_hex_color (other : string -> result (Z * Z * Z)) (r g b : Z) :
  is_byte r -> is_byte g -> is_byte b ->
  getrgb other (hex_color r g b) = Ok (r, g, b).
Proof.
  intros Hr Hg Hb.
  destruct (format_02x_byte r Hr) as (r1 & r2 & Er & Lr1 & Lr2 & Vr).
  destruct (format_02x_byte g Hg) as (g1 & g2 & Eg & Lg1 & Lg2 & Vg).
  destruct (format_02x_byte b Hb) as (b1 & b2 & Eb & Lb1 & Lb2 & Vb).
  unfold getrgb, hex_color. rewrite Er, Eg, Eb. cbn [append Str.lower Str.map_string].
  rewrite Lr1, Lr2, Lg1, Lg2, Lb1, Lb2.
  change (Str.lower_ascii "#") with "#"%char.
  cbn [Pil.getrgb_hex Ascii.eqb Bool.eqb negb].
  rewrite Vr, Vg, Vb. reflexivity.
Qed.

(** ** The colour keyer *)

Lemma map_map_Forall {A B} (P : A -> Prop) (f g : A -> B) (d : buffer A) :
  (forall p, P p -> f p = g p) ->
  Forall (Forall P) d -> map (map f) d = map (map g) d.
Proof.
  intros Hfg Hd. induction Hd as [|row d Hrow _ IH]; [reflexivity|].
  cbn [map]. f_equal; [|exact IH].
  induction Hrow as [|p row Hp _ IHrow]; [reflexivity|].
  cbn [map]. f_equal; [apply Hfg; exact Hp | exact IHrow].
Qed.

Lemma exact_pixel_spec (used : Z * Z * Z) (p : rgba) :
  byte_color used -> byte_pixel p ->
  quantize_pixel (exact_pixel (scale_color used) (normalize_pixel p)) = spec_exact_key used p.
Proof.
  destruct used as [[tr tg] tb], p as [[[r g] b] a].
  intros (Htr & Htg & Htb) (Hr & Hg & Hb & Ha).
  unfold normalize_pixel, scale_color, exact_pixel, spec_exact_key.
  rewrite !normalize_eqb_scale, normalize_eqb_zero by assumption.
  destruct (((r =? tr) && (g =? tg) && (b =? tb)) || (a =? 0));
    unfold quantize_pixel; rewrite !quantize_normalize by assumption;
    rewrite ?quantize_zero, ?quantize_one; reflexivity.
Qed.

Lemma buffer_map_map {A B C} (f : A -> B) (g : B -> C) (d : buffer A) :
  map (map g) (map (map f) d) = map (map (fun p => g (f p))) d.
Proof.
  induction d as [|row d IH]; [reflexivity|].
  cbn [map]. rewrite IH, map_map. reflexivity.
Qed.

Lemma exact_buffer_spec (used : Z * Z * Z) (d : buffer rgba) :
  byte_color used -> byte_buffer d ->
  map (map quantize_pixel)
      (map (map (exact_pixel (scale_color used))) (map (map normalize_pixel) d))
  = map (map (spec_exact_key used)) d.
Proof.
  intros Hu Hd. rewrite !buffer_map_map.
  apply (map_map_Forall byte_pixel); [|exact Hd].
  intros p Hp. apply exact_pixel_spec; assumption.
Qed.

Lemma getpixel_map {A B} (f : A -> B) (d : buffer A) (x y : Z) :
  Pil.getpixel (map (map f) d) x y = option_map f (Pil.getpixel d x y).
Proof.
  unfold Pil.getpixel. destruct ((x <? 0) || (y <? 0)); [reflexivity|].
  rewrite nth_error_map. destruct (nth_error d (Z.to_nat y)) as [row|]; [|reflexivity].
  cbn [option_map]. apply nth_error_map.
Qed.

Lemma getpixel_In {A} (d : buffer A) (x y : Z) (p : A) :
  Pil.getpixel d x y = Some p -> exists row, In row d /\ In p row.
Proof.
  unfold Pil.getpixel. destruct ((x <? 0) || (y <? 0)); [discriminate|].
  destruct (nth_error d (Z.to_nat y)) as [row|] eqn:Hrow; [|discriminate].
  intros Hp. exists row. split; eapply nth_error_In; eassumption.
Qed.

Lemma getpixel_byte (d : buffer rgba) (x y : Z) (p : rgba) :
  byte_buffer d -> Pil.getpixel d x y = Some p -> byte_pixel p.
Proof.
  intros Hd Hp. destruct (getpixel_In _ _ _ _ Hp) as (row & Hrow & Hin).
  unfold byte_buffer in Hd. rewrite Forall_forall in Hd.
  specialize (Hd row Hrow). rewrite Forall_forall in Hd. exact (Hd p Hin).
Qed.

Section Keyer.

Variable other : string -> result (Z * Z * Z).

(** With detection off the keyer leaves the widgets alone and always takes the
    exact branch, whatever the value of the match checkbox. *)
Lemma add_transparency_no_detect (image : Image) (w : Widgets) (used : Z * Z * Z) :
  value (detect_checkbox w) = false ->
  getrgb other (color_picker_value w) = Ok used ->
  add_transparency other image w
  = (Ok (ImageRGBA (map (map quantize_pixel)
                     (map (map (exact_pixel (scale_color used)))
                        (map (map normalize_pixel) (Pil.convert_RGBA image))))), w).
Proof.
  intros Hd Hc. unfold add_transparency, bind, gets, lift, ret.
  rewrite Hd. cbn. rewrite Hc. destruct used as [[tr tg] tb]. reflexivity.
Qed.

Lemma add_transparency_detect (image : Image) (w : Widgets) (r g b a : Z) :
  value (detect_checkbox w) = true ->
  byte_buffer (Pil.convert_RGBA image) ->
  Pil.getpixel (Pil.convert_RGBA image) 0 0 = Some (r, g, b, a) ->
  add_transparency other image w
  = (Ok (ImageRGBA (map (map quantize_pixel)
                     (map (map (exact_pixel (scale_color (r, g, b))))
                        (map (map normalize_pixel) (Pil.convert_RGBA image))))),
     notify_info ("Detected background color: " ++ Str.upper (hex_color r g b) ++ " ("
                  ++ Str.str r ++ ", " ++ Str.str g ++ ", " ++ Str.str b ++ ")")
       (set_color_picker_value (hex_color r g b) w)).
Proof.
  intros Hd Hbytes Hp.
  pose proof (getpixel_byte _ _ _ _ Hbytes Hp) as (Hr & Hg & Hb & _).
  unfold add_transparency, bind, gets, lift, ret.
  rewrite Hd. unfold detect_color. rewrite getpixel_map, Hp.
  cbn [option_map normalize_pixel].
  rewrite !astype_int_normalize by assumption.
  unfold bind, modify, gets. cbn [color_picker_value set_color_picker_value notify_info].
  fold (hex_color r g b). rewrite getrgb_hex_color by assumption. reflexivity.
Qed.

End Keyer.

Section KeyerClaims.

Variable other : string -> result (Z * Z * Z).

Lemma add_transparency_exact (image : Image) (w : Widgets) (used : Z * Z * Z) :
  used_color_is other image w used ->
  byte_color used ->
  byte_buffer (Pil.convert_RGBA image) ->
  exists w',
    add_transparency other image w
    = (Ok (ImageRGBA (map (map (spec_exact_key used)) (Pil.convert_RGBA image))), w')
    /\ (value (detect_checkbox w) = false -> w' = w).
Proof.
  intros [[Hd Hc] | [Hd [a Hp]]] Hu Hbytes.
  - exists w. split; [|reflexivity].
    rewrite (add_transparency_no_detect other image w used Hd Hc).
    rewrite exact_buffer_spec by assumption. reflexivity.
  - destruct used as [[tr tg] tb]. cbn [fst snd] in Hp.
    rewrite (add_transparency_detect other image w tr tg tb a Hd Hbytes Hp).
    rewrite exact_buffer_spec by assumption.
    eexists. split; [reflexivity|]. rewrite Hd. discriminate.
Qed.

(** C2. In exact mode (match checkbox checked), whether the used colour is
    the picked one or the detected one, the keyer returns the image with the
    colour bands unchanged and with alpha 0 exactly where the normalised
    colour equals the used colour on all three channels or the source alpha
    is 0, and alpha 255 everywhere else; with detection off the widgets are
    left as they were. *)
Theorem exact_mode_masks_color (image : Image) (w : Widgets) (tr tg tb : Z) :
  value (match_checkbox w) = true ->
  used_color_is other image w (tr, tg, tb) ->
  byte_color (tr, tg, tb) ->
  byte_buffer (Pil.convert_RGBA image) ->
  (exists w',
     add_transparency other image w
     = (Ok (ImageRGBA (map (map (spec_exact_key (tr, tg, tb))) (Pil.convert_RGBA image))), w')
     /\ (value (detect_checkbox w) = false -> w' = w))
  /\ forall r g b a, byte_pixel (r, g, b, a) ->
       exists alpha,
         spec_exact_key (tr, tg, tb) (r, g, b, a) = (r, g, b, alpha)
         /\ (alpha = 0 <->
               (PrimFloat.eqb (Np.normalize r) (Np.scale tr) = true
                /\ PrimFloat.eqb (Np.normalize g) (Np.scale tg) = true
                /\ PrimFloat.eqb (Np.normalize b) (Np.scale tb) = true)
               \/ a = 0)
         /\ (alpha <> 0 -> alpha = 255).
Proof.
  intros _ Hused Hu Hbytes. split.
  - apply add_transparency_exact; assumption.
  - intros r g b a (Hr & Hg & Hb & Ha). destruct Hu as (Htr & Htg & Htb).
    rewrite !normalize_eqb_scale by assumption.
    unfold spec_exact_key.
    exists (if ((r =? tr) && (g =? tg) && (b =? tb)) || (a =? 0) then 0 else 255).
    split; [reflexivity|].
    destruct (((r =? tr) && (g =? tg) && (b =? tb)) || (a =? 0)) eqn:Em.
    + split; [|intros H; exfalso; apply H; reflexivity].
      split; [intros _|reflexivity].
      apply orb_true_iff in Em. destruct Em as [Em|Em].
      * left. apply andb_true_iff in Em. destruct Em as [Em Eb].
        apply andb_true_iff in Em. destruct Em as [Er Eg]. auto.
      * right. apply Z.eqb_eq. exact Em.
    + split; [|reflexivity].
      split; [discriminate|].
      apply orb_false_iff in Em. destruct Em as [Em Ea].
      intros [(Er & Eg & Eb)|Hz].
      * rewrite Er, Eg, Eb in Em. discriminate Em.
      * apply Z.eqb_neq in Ea. contradiction.
Qed.

(** C6. With detection on, the used colour is the colour of the pixel at
    (0,0), whatever its alpha and whatever the colour picker held: the picker
    ends up holding that colour, which reads back as exactly that triple. *)
Theorem detect_uses_top_left (image : Image) (w : Widgets) (r g b a : Z) :
  value (detect_checkbox w) = true ->
  byte_buffer (Pil.convert_RGBA image) ->
  Pil.getpixel (Pil.convert_RGBA image) 0 0 = Some (r, g, b, a) ->
  exists out w',
    add_transparency other image w = (Ok out, w')
    /\ color_picker_value w' = hex_color r g b
    /\ getrgb other (color_picker_value w') = Ok (r, g, b).
Proof.
  intros Hd Hbytes Hp.
  pose proof (getpixel_byte _ _ _ _ Hbytes Hp) as (Hr & Hg & Hb & _).
  rewrite (add_transparency_detect other image w r g b a Hd Hbytes Hp).
  eexists. eexists. split; [reflexivity|].
  cbn [color_picker_value notify_info set_color_picker_value].
  split; [reflexivity|]. apply getrgb_hex_color; assumption.
Qed.

(** C10, amended. An image whose mode has no alpha band and that carries no
    transparency beside its bands is opaque once converted (every alpha is
    255), so in exact mode no pixel meets the transparent-already condition
    and the output alpha is decided by the colour match alone, whether the
    used colour is the picked one or the detected one. *)
Theorem no_alpha_band_is_opaque (image : Image) (w : Widgets) (tr tg tb : Z) :
  has_alpha_band image = false ->
  has_transparency image = false ->
  value (match_checkbox w) = true ->
  used_color_is other image w (tr, tg, tb) ->
  byte_color (tr, tg, tb) ->
  byte_buffer (Pil.convert_RGBA image) ->
  Forall (Forall opaque) (Pil.convert_RGBA image)
  /\ (forall x y p, Pil.getpixel (Pil.convert_RGBA image) x y = Some p -> (snd p =? 0) = false)
  /\ exists w',
       add_transparency other image w
       = (Ok (ImageRGBA (map (map (spec_color_key (tr, tg, tb))) (Pil.convert_RGBA image))), w')
       /\ (value (detect_checkbox w) = false -> w' = w).
Proof.
  intros Hmode Hinfo _ Hused Hu Hbytes.
  assert (Hop : Forall (Forall opaque) (Pil.convert_RGBA image)).
  { destruct image as [d|d|d|d t|d t|d palette [|t|alphas]]; try discriminate;
      cbn [Pil.convert_RGBA];
      apply Forall_forall; intros row Hrow; apply in_map_iff in Hrow;
      destruct Hrow as (row0 & <- & _); apply Forall_forall; intros p Hin;
      apply in_map_iff in Hin; destruct Hin as (q & <- & _).
    - reflexivity.
    - destruct q as [[qr qg] qb]. reflexivity.
    - destruct (nth (Z.to_nat q) palette (0, 0, 0)) as [[qr qg] qb]. reflexivity. }
  split; [exact Hop|]. split.
  - intros x y p Hp. destruct (getpixel_In _ _ _ _ Hp) as (row & Hrow & Hin).
    rewrite Forall_forall in Hop. specialize (Hop row Hrow).
    rewrite Forall_forall in Hop. rewrite (Hop p Hin). reflexivity.
  - destruct (add_transparency_exact image w (tr, tg, tb) Hused Hu Hbytes)
      as (w' & Hrun & Hw).
    exists w'. split; [|exact Hw]. rewrite Hrun.
    rewrite (map_map_Forall opaque (spec_exact_key (tr, tg, tb))
               (spec_color_key (tr, tg, tb)) (Pil.convert_RGBA image)); [reflexivity| |exact Hop].
    intros [[[r g] b] a] Ha. unfold opaque in Ha. cbn in Ha. subst a.
    unfold spec_exact_key, spec_color_key. rewrite orb_false_r. reflexivity.
Qed.

End KeyerClaims.

(** The example of the specification, white and black keyed on white, and a
    run with detection on. *)
Lemma exact_mode_masks_color_witness :
  add_transparency no_names white_black (widgets_with "#FFFFFF" false true)
  = (Ok (ImageRGBA [[(255, 255, 255, 0); (0, 0, 0, 255)]]), widgets_with "#FFFFFF" false true)
  /\ exists w',
       add_transparency no_names corner_10_20_30 (widgets_with "#FFFFFF" true true)
       = (Ok (ImageRGBA (map (map (spec_exact_key (10, 20, 30)))
                          (Pil.convert_RGBA corner_10_20_30))), w').
Proof.
  destruct (exact_mode_masks_color no_names white_black (widgets_with "#FFFFFF" false true)
              255 255 255) as [(w1 & Hrun1 & Hw1) _];
    [reflexivity | left; split; reflexivity | byte_facts | byte_facts |].
  destruct (exact_mode_masks_color no_names corner_10_20_30
              (widgets_with "#FFFFFF" true true) 10 20 30) as [(w2 & Hrun2 & _) _];
    [reflexivity | right; split; [reflexivity | exists 7; reflexivity]
    | byte_facts | byte_facts |].
  split.
  - rewrite Hrun1, (Hw1 eq_refl). reflexivity.
  - exists w2. exact Hrun2.
Defined.

Lemma detect_uses_top_left_witness :
  exists out w',
    add_transparency no_names corner_10_20_30 (widgets_with "#FFFFFF" true true) = (Ok out, w')
    /\ color_picker_value w' = hex_color 10 20 30
    /\ getrgb no_names (color_picker_value w') = Ok (10, 20, 30).
Proof.
  apply (detect_uses_top_left no_names corner_10_20_30 (widgets_with "#FFFFFF" true true)
           10 20 30 7); [reflexivity | | reflexivity]; byte_facts.
Defined.

Lemma no_alpha_band_is_opaque_witness :
  exists w',
    add_transparency no_names white_black (widgets_with "#000000" false true)
    = (Ok (ImageRGBA (map (map (spec_color_key (0, 0, 0))) (Pil.convert_RGBA white_black))), w')
    /\ (value (detect_checkbox (widgets_with "#000000" false true)) = false ->
        w' = widgets_with "#000000" false true).
Proof.
  apply (no_alpha_band_is_opaque no_names white_black (widgets_with "#000000" false true)
           0 0 0);
    [reflexivity | reflexivity | reflexivity | left; split; reflexivity
    | byte_facts | byte_facts].
Defined.

(** C10, as stated, fails: an RGB image whose file declares white transparent
    has no alpha band, yet its white pixel is transparent once converted,
    and keyed on black it stays transparent although its colour does not
    match. *)
Lemma transparent_color_is_not_opaque :
  has_alpha_band white_is_transparent = false
  /\ Pil.convert_RGBA white_is_transparent = [[(255, 255, 255, 0); (0, 0, 0, 255)]]
  /\ ~ Forall (Forall opaque) (Pil.convert_RGBA white_is_transparent)
  /\ add_transparency no_names white_is_transparent (widgets_with "#000000" false true)
     = (Ok (ImageRGBA [[(255, 255, 255, 0); (0, 0, 0, 0)]]),
        widgets_with "#000000" false true)
  /\ map (map (spec_color_key (0, 0, 0))) (Pil.convert_RGBA white_is_transparent)
     = [[(255, 255, 255, 255); (0, 0, 0, 0)]].
Proof.
  split; [reflexivity|]. split; [reflexivity|]. split; [|split; vm_compute; reflexivity].
  intros H. inversion H as [|row rest Hrow _]. subst.
  inversion Hrow as [|p prest Hp _]. subst.
  unfold opaque in Hp. cbn in Hp. discriminate Hp.
Qed.

(** The match checkbox does not reach the result: the branch looks at the
    widget, which is always true, and not at its value. *)
Lemma match_value_ignored (other : string -> result (Z * Z * Z)) (image : Image)
      (t1 t2 : string) (m : static_value) (s : Z) (c : string)
      (d m1 m2 : Checkbox) (n : list string) :
  fst (add_transparency other image (mkWidgets t1 t2 m s c d m1 n))
  = fst (add_transparency other image (mkWidgets t1 t2 m s c d m2 n)).
Proof.
  unfold add_transparency, bind, gets, lift, ret. cbn [detect_checkbox match_checkbox].
  destruct (value d).
  - unfold detect_color.
    destruct (Pil.getpixel _ 0 0) as [[[[fr fg] fb] fa]|]; [|reflexivity].
    unfold bind, modify, gets. cbn [color_picker_value set_color_picker_value notify_info].
    destruct (getrgb other _) as [[[tr tg] tb]|e]; reflexivity.
  - cbn [color_picker_value].
    destruct (getrgb other c) as [[[tr tg] tb]|e]; reflexivity.
Qed.

(** C1. With the match checkbox unchecked the keyer still masks exactly: a
    mid grey keyed on white comes out opaque and a transparent black stays
    transparent, where the fade of lines 127-139 (and the largest channel
    distance it stands for) gives alpha 127 and 255. *)
Theorem unchecked_match_still_masks :
  add_transparency no_names grey_and_clear (widgets_with "#FFFFFF" false false)
  = (Ok (ImageRGBA [[(128, 128, 128, 255); (0, 0, 0, 0)]]), widgets_with "#FFFFFF" false false)
  /\ map (map quantize_pixel)
       (map (map (fade_pixel (scale_color (255, 255, 255))))
          (map (map normalize_pixel) (Pil.convert_RGBA grey_and_clear)))
     = [[(128, 128, 128, 127); (0, 0, 0, 255)]]
  /\ map (map (spec_fade_key (255, 255, 255))) (Pil.convert_RGBA grey_and_clear)
     = [[(128, 128, 128, 127); (0, 0, 0, 255)]].
Proof. vm_compute. repeat split; reflexivity. Qed.

(** The cast of the write-out drops the fraction: a channel value of one
    eighth would be written as 31, where the nearest integer is 32, and the
    alpha the fade computes for colour 1 against colour 34 would be written
    as 32. *)
Lemma write_out_is_not_rounding :
  Np.quantize 0.125 = 31
  /\ Np.spec_round_nearest (0.125 * 255)%float = 32
  /\ Np.quantize 0.125 <> Np.spec_round_nearest (0.125 * 255)%float
  /\ quantize_pixel (fade_pixel (scale_color (34, 34, 34)) (normalize_pixel (1, 1, 1, 255)))
     = (1, 1, 1, 32).
Proof. vm_compute. repeat split; try reflexivity. discriminate. Qed.

(** The written channel [q] of a float [x] satisfies q <= 255 x < q + 1. On a
    byte channel divided by 255 the product is a whole number, so the byte
    comes back as it was, and rounding gives the same; 0 stays 0 and 1
    becomes 255. *)
Lemma write_out_drops_fraction (x : float) (m : positive) (e : Z) :
  Prim2SF (x * 255)%float = S754_finite false m e ->
  e < 0 ->
  Z.pos m < 256 * 2 ^ (- e) ->
  (Np.quantize x * 2 ^ (- e) <= Z.pos m < (Np.quantize x + 1) * 2 ^ (- e))
  /\ (forall k, is_byte k ->
        Np.quantize (Np.normalize k) = k
        /\ Np.spec_round_nearest (Np.normalize k * 255)%float = k)
  /\ Np.quantize 0 = 0
  /\ Np.quantize 1 = 255.
Proof.
  intros Hx He Hm.
  split; [|split; [|split; [exact quantize_zero | exact quantize_one]]].
  - unfold Np.quantize, Np.astype_int. rewrite Hx.
    destruct (0 <=? e) eqn:E0; [apply Z.leb_le in E0; lia|].
    pose proof (shiftr_integer_part (Z.pos m) (- e) ltac:(lia) ltac:(lia)) as Hs.
    assert (Hp : 0 < 2 ^ (- e)) by (apply Z.pow_pos_nonneg; lia).
    assert (Hlo : 0 <= Z.shiftr (Z.pos m) (- e)) by (apply Z.shiftr_nonneg; lia).
    assert (Hhi : Z.shiftr (Z.pos m) (- e) < 256) by nia.
    destruct (2 ^ 63 <=? Z.shiftr (Z.pos m) (- e)) eqn:E63;
      [apply Z.leb_le in E63; lia|].
    unfold Np.ubyte. rewrite Z.mod_small by lia. exact Hs.
  - intros k Hk. split; [apply quantize_normalize | apply round_nearest_normalize]; exact Hk.
Qed.

Lemma write_out_drops_fraction_at_an_eighth :
  Np.quantize 0.125 * 2 ^ 48 <= 8972014882652160 < (Np.quantize 0.125 + 1) * 2 ^ 48.
Proof.
  apply (write_out_drops_fraction 0.125 8972014882652160 (-48));
    [vm_compute; reflexivity | lia | vm_compute; reflexivity].
Qed.




Section WriteOut.

Variable other : string -> result (Z * Z * Z).



End WriteOut.


(** ** The squarifier *)

Lemma imap_from_length {A B} (f : Z -> A -> B) (l : list A) (i : Z) :
  List.length (Pil.imap_from i f l) = List.length l.
Proof.
  revert i. induction l as [|a l IH]; intros i; [reflexivity|].
  cbn [Pil.imap_from List.length]. rewrite IH. reflexivity.
Qed.

Lemma imap_from_nth_error {A B} (f : Z -> A -> B) (l : list A) (i : Z) (n : nat) :
  nth_error (Pil.imap_from i f l) n = option_map (f (i + Z.of_nat n)) (nth_error l n).
Proof.
  revert i n. induction l as [|a l IH]; intros i n.
  - destruct n; reflexivity.
  - destruct n as [|n]; cbn [Pil.imap_from nth_error option_map].
    + rewrite Z.add_0_r. reflexivity.
    + rewrite IH. f_equal. f_equal. lia.
Qed.

Lemma imap_from_Forall {A B} (P : B -> Prop) (f : Z -> A -> B) (l : list A) (i : Z) :
  (forall j a, In a l -> P (f j a)) -> Forall P (Pil.imap_from i f l).
Proof.
  revert i. induction l as [|a l IH]; intros i H; cbn [Pil.imap_from]; constructor.
  - apply H. left. reflexivity.
  - apply IH. intros j b Hb. apply H. right. exact Hb.
Qed.

Lemma shaped_buffer_size {A} (n : nat) (d : buffer A) :
  shaped n n d -> Pil.buffer_size d = (Z.of_nat n, Z.of_nat n).
Proof.
  intros [Hlen Hrows]. unfold Pil.buffer_size. rewrite Hlen.
  destruct d as [|row d]; cbn [hd].
  - cbn in Hlen. subst n. reflexivity.
  - inversion Hrows as [|? ? Hrow _]; subst. rewrite Hrow. reflexivity.
Qed.

Lemma blank_shaped (n : nat) : shaped n n (blank n).
Proof.
  split; [apply repeat_length|].
  apply Forall_forall. intros row Hrow. apply repeat_spec in Hrow. subst row.
  apply repeat_length.
Qed.

Lemma paste_shaped (w h : nat) (dest src : buffer rgba) (cx cy : Z) :
  shaped w h dest -> shaped w h (Pil.paste dest src cx cy).
Proof.
  intros [Hlen Hrows]. unfold Pil.paste. split.
  - rewrite imap_from_length. exact Hlen.
  - apply imap_from_Forall. intros j row Hrow. rewrite imap_from_length.
    rewrite Forall_forall in Hrows. apply Hrows. exact Hrow.
Qed.

Lemma zseq_length (n : Z) : List.length (Pil.zseq n) = Z.to_nat n.
Proof. unfold Pil.zseq. rewrite length_map, length_seq. reflexivity. Qed.

Lemma tabulate_shaped {A} (f : Z -> Z -> A) (w h : Z) :
  shaped (Z.to_nat w) (Z.to_nat h)
         (map (fun y => map (fun x => f x y) (Pil.zseq w)) (Pil.zseq h)).
Proof.
  split.
  - rewrite length_map. apply zseq_length.
  - apply Forall_forall. intros row Hrow. apply in_map_iff in Hrow.
    destruct Hrow as (y & <- & _). rewrite length_map. apply zseq_length.
Qed.

Lemma getpixel_nonneg {A} (d : buffer A) (x y : Z) :
  0 <= x -> 0 <= y ->
  Pil.getpixel d x y
  = match nth_error d (Z.to_nat y) with
    | Some row => nth_error row (Z.to_nat x)
    | None => None
    end.
Proof.
  intros Hx Hy. unfold Pil.getpixel.
  destruct (x <? 0) eqn:Ex; [apply Z.ltb_lt in Ex; lia|].
  destruct (y <? 0) eqn:Ey; [apply Z.ltb_lt in Ey; lia|]. reflexivity.
Qed.

(** A pixel is there exactly when the place is inside the buffer. *)
Lemma getpixel_inside {A} (w h : nat) (d : buffer A) (x y : Z) :
  shaped w h d ->
  (Pil.getpixel d x y <> None <-> 0 <= x < Z.of_nat w /\ 0 <= y < Z.of_nat h).
Proof.
  intros [Hlen Hrows]. unfold Pil.getpixel.
  destruct (x <? 0) eqn:Ex; [apply Z.ltb_lt in Ex; cbn [orb]; split; [congruence|lia]|].
  destruct (y <? 0) eqn:Ey; [apply Z.ltb_lt in Ey; cbn [orb]; split; [congruence|lia]|].
  apply Z.ltb_ge in Ex. apply Z.ltb_ge in Ey. cbn [orb].
  destruct (nth_error d (Z.to_nat y)) as [row|] eqn:Hrow.
  - assert (Hy : (Z.to_nat y < List.length d)%nat)
      by (apply nth_error_Some; congruence).
    assert (Hw : List.length row = w).
    { rewrite Forall_forall in Hrows. apply Hrows. eapply nth_error_In. exact Hrow. }
    rewrite nth_error_Some, Hw. lia.
  - apply nth_error_None in Hrow. split; [congruence|lia].
Qed.

Lemma getpixel_paste (dest src : buffer rgba) (cx cy x y : Z) :
  0 <= x -> 0 <= y ->
  Pil.getpixel (Pil.paste dest src cx cy) x y
  = option_map (fun p => match Pil.getpixel src (x - cx) (y - cy) with
                         | Some q => q
                         | None => p
                         end) (Pil.getpixel dest x y).
Proof.
  intros Hx Hy.
  rewrite (getpixel_nonneg (Pil.paste dest src cx cy) x y Hx Hy).
  rewrite (getpixel_nonneg dest x y Hx Hy). unfold Pil.paste.
  rewrite imap_from_nth_error.
  destruct (nth_error dest (Z.to_nat y)) as [row|]; [|reflexivity].
  cbn [option_map]. rewrite imap_from_nth_error.
  replace (0 + Z.of_nat (Z.to_nat x)) with x by lia.
  replace (0 + Z.of_nat (Z.to_nat y)) with y by lia.
  reflexivity.
Qed.

Lemma getpixel_blank (n : nat) (x y : Z) :
  0 <= x < Z.of_nat n -> 0 <= y < Z.of_nat n ->
  Pil.getpixel (blank n) x y = Some transparent_white.
Proof.
  intros Hx Hy. rewrite getpixel_nonneg by lia. unfold blank.
  rewrite nth_error_repeat by lia. apply nth_error_repeat. lia.
Qed.

(** Pasting a full-size image at the origin of a canvas of the same size
    gives that image. *)
Lemma paste_full (n : nat) (src : buffer rgba) :
  shaped n n src -> Pil.paste (blank n) src 0 0 = src.
Proof.
  intros Hs. pose proof (paste_shaped n n (blank n) src 0 0 (blank_shaped n)) as Hp.
  apply nth_error_ext. intros j.
  destruct (Nat.lt_ge_cases j n) as [Hj|Hj].
  - destruct Hs as [Hlen Hrows]. destruct Hp as [Hplen Hprows].
    destruct (nth_error src j) as [row|] eqn:Hrow;
      [|apply nth_error_None in Hrow; lia].
    destruct (nth_error (Pil.paste (blank n) src 0 0) j) as [prow|] eqn:Hprow;
      [|apply nth_error_None in Hprow; lia].
    f_equal. apply nth_error_ext. intros i.
    assert (Hw : List.length row = n).
    { rewrite Forall_forall in Hrows. apply Hrows. eapply nth_error_In. exact Hrow. }
    assert (Hpw : List.length prow = n).
    { rewrite Forall_forall in Hprows. apply Hprows. eapply nth_error_In. exact Hprow. }
    destruct (Nat.lt_ge_cases i n) as [Hi|Hi].
    + pose proof (getpixel_paste (blank n) src 0 0 (Z.of_nat i) (Z.of_nat j)
                    ltac:(lia) ltac:(lia)) as Hg.
      rewrite getpixel_blank in Hg by lia. cbn [option_map] in Hg.
      rewrite !Z.sub_0_r in Hg.
      rewrite !getpixel_nonneg in Hg by lia. rewrite !Nat2Z.id in Hg.
      rewrite Hprow, Hrow in Hg.
      destruct (nth_error row i) as [q|] eqn:Hq; [exact Hg|].
      apply nth_error_None in Hq. lia.
    + transitivity (@None rgba); [|symmetry]; apply nth_error_None; lia.
  - destruct Hs as [Hlen _]. destruct Hp as [Hplen _].
    transitivity (@None (list rgba)); [|symmetry]; apply nth_error_None; lia.
Qed.

Lemma size_convert (image : Image) :
  Pil.size image = Pil.buffer_size (Pil.convert_RGBA image).
Proof.
  destruct image as [d|d|d|d t|d [[tr tg] tb]|d palette t];
    cbn [Pil.size Pil.convert_RGBA]; try reflexivity;
    unfold Pil.buffer_size; rewrite length_map;
    destruct d as [|row d]; cbn [map hd]; rewrite ?length_map; reflexivity.
Qed.

Lemma size_nonneg (image : Image) (width height : Z) :
  Pil.size image = (width, height) -> 0 <= width /\ 0 <= height.
Proof.
  rewrite size_convert. unfold Pil.buffer_size. intros H. inversion H. lia.
Qed.

Lemma square_canvas_eq (image : Image) (width height : Z) :
  Pil.size image = (width, height) ->
  square_canvas image
  = Ok (Pil.paste (blank (Z.to_nat (Z.max width height))) (Pil.convert_RGBA image)
          ((Z.max width height - width) / 2) ((Z.max width height - height) / 2)).
Proof.
  intros Hsize. pose proof (size_nonneg _ _ _ Hsize) as [Hw Hh].
  unfold square_canvas. rewrite Hsize. unfold Pil.new.
  destruct (Z.max width height <? 0) eqn:E; [apply Z.ltb_lt in E; lia|].
  reflexivity.
Qed.

Lemma square_canvas_shaped (image : Image) (width height : Z) (canvas : buffer rgba) :
  Pil.size image = (width, height) ->
  square_canvas image = Ok canvas ->
  shaped (Z.to_nat (Z.max width height)) (Z.to_nat (Z.max width height)) canvas.
Proof.
  intros Hsize Hc. rewrite (square_canvas_eq _ _ _ Hsize) in Hc.
  inversion Hc. apply paste_shaped, blank_shaped.
Qed.

Section Squarifier.

Variable resample : buffer rgba -> Z * Z -> Z -> Z -> rgba.

Lemma squarify_image_run (image : Image) (w : Widgets) (width height : Z)
      (canvas : buffer rgba) :
  Pil.size image = (width, height) ->
  square_canvas image = Ok canvas ->
  squarify_image resample image w
  = (match resize resample canvas
             (effective_size (Z.max width height) (size_spinner_value w))
             (effective_size (Z.max width height) (size_spinner_value w)) with
     | Ok resized => Ok (ImageRGBA resized)
     | Raise e => Raise e
     end, squarify_widgets width height w).
Proof.
  intros Hsize Hc. unfold squarify_image, squarify_widgets, effective_size.
  rewrite Hsize. unfold bind, modify, gets, lift, ret.
  cbn [size_spinner_value set_max_static_text_value set_input_card_title].
  destruct (Z.max width height <? size_spinner_value w); rewrite Hc;
    match goal with
    | |- context [resize resample canvas ?a ?b] => destruct (resize resample canvas a b)
    end; reflexivity.
Qed.

Lemma resize_same (d : buffer rgba) (n : nat) :
  shaped n n d -> resize resample d (Z.of_nat n) (Z.of_nat n) = Ok d.
Proof.
  intros Hs. unfold resize. rewrite (shaped_buffer_size n d Hs).
  rewrite !Z.eqb_refl. reflexivity.
Qed.

(** A resize that succeeds gives a square buffer of the side asked for. *)
Lemma resize_shaped (d resized : buffer rgba) (n : nat) (side : Z) :
  shaped n n d ->
  resize resample d side side = Ok resized ->
  shaped (Z.to_nat side) (Z.to_nat side) resized.
Proof.
  intros Hs. unfold resize. rewrite (shaped_buffer_size n d Hs).
  destruct (Z.of_nat n =? side) eqn:E.
  - apply Z.eqb_eq in E. cbn [andb]. intros H. inversion H. subst.
    rewrite Nat2Z.id. exact Hs.
  - cbn [andb]. destruct ((side <? 1) || (side <? 1)); [discriminate|].
    intros H. inversion H. apply tabulate_shaped.
Qed.

End Squarifier.

Lemma squarify_widgets_spinner (width height : Z) (w : Widgets) :
  size_spinner_value (squarify_widgets width height w)
  = effective_size (Z.max width height) (size_spinner_value w).
Proof.
  unfold squarify_widgets, effective_size.
  destruct (Z.max width height <? size_spinner_value w); reflexivity.
Qed.

Section SquarifierClaims.

Variable resample : buffer rgba -> Z * Z -> Z -> Z -> rgba.

(** C5. For a positive desired size the squarifier returns a square image of
    side effectiveSize, which is the desired size when that is at most
    max(W, H) and max(W, H) otherwise, and so never more than max(W, H); the
    size spinner holds effectiveSize afterwards. *)
Theorem squarify_output_is_square (image : Image) (w : Widgets) (width height : Z) :
  Pil.size image = (width, height) ->
  0 < size_spinner_value w ->
  let desired_size := size_spinner_value w in
  let max_size := Z.max width height in
  let effective := if desired_size <=? max_size then desired_size else max_size in
  exists out w',
    squarify_image resample image w = (Ok out, w')
    /\ Pil.size out = (effective, effective)
    /\ effective <= max_size
    /\ size_spinner_value w' = effective.
Proof.
  intros Hsize Hpos desired_size max_size effective.
  pose proof (size_nonneg _ _ _ Hsize) as [Hw Hh].
  pose proof (square_canvas_eq _ _ _ Hsize) as Hc.
  pose proof (square_canvas_shaped _ _ _ _ Hsize Hc) as Hs.
  fold max_size in Hc, Hs.
  assert (Heff : effective_size max_size desired_size = effective).
  { unfold effective_size, effective.
    destruct (max_size <? desired_size) eqn:E1, (desired_size <=? max_size) eqn:E2;
      try reflexivity; [apply Z.ltb_lt in E1; apply Z.leb_le in E2
                       |apply Z.ltb_ge in E1; apply Z.leb_gt in E2]; lia. }
  assert (Hle : effective <= max_size).
  { unfold effective. destruct (desired_size <=? max_size) eqn:E2;
      [apply Z.leb_le in E2|]; lia. }
  assert (Hres : exists resized,
             resize resample
               (Pil.paste (blank (Z.to_nat max_size)) (Pil.convert_RGBA image)
                  ((max_size - width) / 2) ((max_size - height) / 2))
               effective effective = Ok resized).
  { unfold resize. rewrite (shaped_buffer_size _ _ Hs).
    destruct (Z.of_nat (Z.to_nat max_size) =? effective) eqn:Eq;
      [eexists; reflexivity|].
    apply Z.eqb_neq in Eq. cbn [andb].
    destruct (effective <? 1) eqn:E1; [|eexists; reflexivity].
    exfalso. apply Z.ltb_lt in E1. unfold effective in E1, Eq.
    destruct (desired_size <=? max_size) eqn:E2; [unfold desired_size in E1; lia|].
    unfold max_size in *. lia. }
  destruct Hres as [resized Hres].
  pose proof (resize_shaped resample _ _ _ _ Hs Hres) as Hrs.
  exists (ImageRGBA resized), (squarify_widgets width height w).
  rewrite (squarify_image_run resample image w width height _ Hsize Hc).
  fold max_size desired_size. rewrite Heff, Hres.
  split; [reflexivity|]. split; [|split; [exact Hle|]].
  - cbn [Pil.size]. rewrite (shaped_buffer_size _ _ Hrs).
    assert (0 <= effective).
    { unfold effective. destruct (desired_size <=? max_size); unfold desired_size; lia. }
    rewrite Z2Nat.id by assumption. reflexivity.
  - rewrite squarify_widgets_spinner. exact Heff.
Qed.

(** C7. The squarifier builds a new S x S canvas, S = max(W, H), of
    transparent pixels, into which the source is copied pixel for pixel (alpha
    as in the source) with its corner at (floor((S - W) / 2),
    floor((S - H) / 2)); the margin in front of the content is the smaller one
    when the difference is odd.  What [squarify_image] returns is that canvas
    resized to the effective size, and the canvas itself when the desired size
    is at least S. *)
Theorem canvas_is_centered (image : Image) (w : Widgets) (width height : Z) :
  Pil.size image = (width, height) ->
  rectangular (Pil.convert_RGBA image) ->
  let max_size := Z.max width height in
  let center_x := (max_size - width) / 2 in
  let center_y := (max_size - height) / 2 in
  let side := Z.min (size_spinner_value w) max_size in
  Pil.new max_size max_size (255, 255, 255, 0) = Ok (blank (Z.to_nat max_size))
  /\ (forall x y, 0 <= x < max_size -> 0 <= y < max_size ->
        Pil.getpixel (blank (Z.to_nat max_size)) x y = Some (255, 255, 255, 0))
  /\ (exists canvas,
        square_canvas image = Ok canvas
        /\ Pil.buffer_size canvas = (max_size, max_size)
        /\ (forall x y, 0 <= x < max_size -> 0 <= y < max_size ->
              Pil.getpixel canvas x y
              = Some (spec_canvas_pixel (Pil.convert_RGBA image) center_x center_y x y))
        /\ squarify_image resample image w
           = (match resize resample canvas side side with
              | Ok resized => Ok (ImageRGBA resized)
              | Raise e => Raise e
              end, squarify_widgets width height w)
        /\ (max_size <= size_spinner_value w ->
            squarify_image resample image w
            = (Ok (ImageRGBA canvas), squarify_widgets width height w)
            /\ forall x y, 0 <= x < max_size -> 0 <= y < max_size ->
                 match fst (squarify_image resample image w) with
                 | Ok out =>
                     Pil.getpixel (Pil.convert_RGBA out) x y
                     = Some (spec_canvas_pixel (Pil.convert_RGBA image)
                               center_x center_y x y)
                 | Raise _ => False
                 end))
  /\ (forall x y,
        Pil.getpixel (Pil.convert_RGBA image) (x - center_x) (y - center_y) <> None
        <-> center_x <= x < center_x + width /\ center_y <= y < center_y + height)
  /\ (2 * center_x <= max_size - width < 2 * center_x + 2
      /\ 0 <= center_x <= max_size - width - center_x
      /\ max_size - width - center_x <= center_x + 1)
  /\ (2 * center_y <= max_size - height < 2 * center_y + 2
      /\ 0 <= center_y <= max_size - height - center_y
      /\ max_size - height - center_y <= center_y + 1).
Proof.
  intros Hsize Hrect max_size center_x center_y side.
  pose proof (size_nonneg _ _ _ Hsize) as [Hw Hh].
  pose proof (square_canvas_eq _ _ _ Hsize) as Hc.
  pose proof (square_canvas_shaped _ _ _ _ Hsize Hc) as Hs.
  fold max_size in Hc, Hs. fold center_x center_y in Hc, Hs.
  assert (Hmax : 0 <= max_size) by (unfold max_size; lia).
  assert (Heff : effective_size max_size (size_spinner_value w) = side).
  { unfold effective_size, side.
    destruct (max_size <? size_spinner_value w) eqn:E;
      [apply Z.ltb_lt in E | apply Z.ltb_ge in E]; lia. }
  assert (Hpix : forall x y, 0 <= x < max_size -> 0 <= y < max_size ->
            Pil.getpixel
              (Pil.paste (blank (Z.to_nat max_size)) (Pil.convert_RGBA image)
                 center_x center_y) x y
            = Some (spec_canvas_pixel (Pil.convert_RGBA image) center_x center_y x y)).
  { intros x y Hx Hy. rewrite getpixel_paste by lia.
    rewrite getpixel_blank by lia. reflexivity. }
  assert (Hrun : squarify_image resample image w
                 = (match resize resample
                            (Pil.paste (blank (Z.to_nat max_size))
                               (Pil.convert_RGBA image) center_x center_y)
                            side side with
                    | Ok resized => Ok (ImageRGBA resized)
                    | Raise e => Raise e
                    end, squarify_widgets width height w)).
  { rewrite (squarify_image_run resample image w width height _ Hsize Hc).
    fold max_size. rewrite Heff. reflexivity. }
  split; [|split; [|split; [|split; [|split]]]].
  - unfold Pil.new. destruct (max_size <? 0) eqn:E; [apply Z.ltb_lt in E; lia|].
    reflexivity.
  - intros x y Hx Hy. apply getpixel_blank; lia.
  - eexists. split; [exact Hc|]. split; [|split; [exact Hpix|split; [exact Hrun|]]].
    + pose proof (shaped_buffer_size _ _ Hs) as Hb.
      rewrite Z2Nat.id in Hb by exact Hmax. exact Hb.
    + intros Hle.
      assert (Hfull : squarify_image resample image w
                      = (Ok (ImageRGBA
                               (Pil.paste (blank (Z.to_nat max_size))
                                  (Pil.convert_RGBA image) center_x center_y)),
                         squarify_widgets width height w)).
      { rewrite Hrun. replace side with (Z.of_nat (Z.to_nat max_size)) by (unfold side; lia).
        rewrite (resize_same resample _ _ Hs). reflexivity. }
      split; [exact Hfull|].
      intros x y Hx Hy. rewrite Hfull. cbn [fst Pil.convert_RGBA].
      apply Hpix; assumption.
  - intros x y. rewrite size_convert in Hsize. unfold Pil.buffer_size in Hsize.
    inversion Hsize as [[Hwd Hht]].
    rewrite (getpixel_inside _ _ _ _ _ Hrect). lia.
  - unfold center_x. pose proof (Z.div_mod (max_size - width) 2 ltac:(lia)).
    pose proof (Z.mod_pos_bound (max_size - width) 2 ltac:(lia)).
    unfold max_size in *. lia.
  - unfold center_y. pose proof (Z.div_mod (max_size - height) 2 ltac:(lia)).
    pose proof (Z.mod_pos_bound (max_size - height) 2 ltac:(lia)).
    unfold max_size in *. lia.
Qed.

(** C8, amended. A desired size that is not positive is not checked: the
    squarifier writes the titles and the maximum as for any other size,
    leaves the size spinner as it is, and ends with the ValueError that the
    resize of the imaging library raises. *)
Theorem nonpositive_size_fails_in_resize (image : Image) (w : Widgets) (width height : Z) :
  Pil.size image = (width, height) ->
  0 < Z.max width height ->
  size_spinner_value w <= 0 ->
  squarify_image resample image w
  = (Raise (ValueError "height and width must be > 0"), squarify_widgets width height w)
  /\ size_spinner_value (squarify_widgets width height w) = size_spinner_value w
  /\ max_static_text_value (squarify_widgets width height w) = Int (Z.max width height)
  /\ output_card_title (squarify_widgets width height w)
     = "Output resolution: " ++ Str.str (size_spinner_value w) ++ "x"
       ++ Str.str (size_spinner_value w).
Proof.
  intros Hsize Hmax Hd.
  pose proof (square_canvas_eq _ _ _ Hsize) as Hc.
  pose proof (square_canvas_shaped _ _ _ _ Hsize Hc) as Hs.
  assert (Heff : effective_size (Z.max width height) (size_spinner_value w)
                 = size_spinner_value w).
  { unfold effective_size.
    destruct (Z.max width height <? size_spinner_value w) eqn:E; [|reflexivity].
    apply Z.ltb_lt in E. lia. }
  split; [|split; [|split]].
  - rewrite (squarify_image_run resample image w width height _ Hsize Hc), Heff.
    unfold resize. rewrite (shaped_buffer_size _ _ Hs).
    destruct (Z.of_nat (Z.to_nat (Z.max width height)) =? size_spinner_value w) eqn:E;
      [apply Z.eqb_eq in E; lia|].
    destruct (size_spinner_value w <? 1) eqn:E1; [reflexivity|].
    apply Z.ltb_ge in E1. lia.
  - rewrite squarify_widgets_spinner. exact Heff.
  - unfold squarify_widgets.
    destruct (Z.max width height <? size_spinner_value w); reflexivity.
  - unfold squarify_widgets. rewrite Heff.
    destruct (Z.max width height <? size_spinner_value w); reflexivity.
Qed.

(** C9. Squarifying the output of the squarifier again, with the widgets as
    the first run left them, returns that output unchanged: the output is
    already square at the effective size, it is pasted at offset (0,0) over
    the whole canvas, and the resize to the size it has is a copy. *)
Theorem resquarify_is_noop (image out : Image) (w w1 : Widgets) :
  squarify_image resample image w = (Ok out, w1) ->
  exists w2,
    squarify_image resample out w1 = (Ok out, w2)
    /\ square_canvas out = Ok (Pil.convert_RGBA out)
    /\ (let '(width, height) := Pil.size out in
        width = height
        /\ (Z.max width height - width) / 2 = 0
        /\ (Z.max width height - height) / 2 = 0).
Proof.
  intros Hrun.
  destruct (Pil.size image) as [width height] eqn:Hsize.
  pose proof (square_canvas_eq _ _ _ Hsize) as Hc.
  pose proof (square_canvas_shaped _ _ _ _ Hsize Hc) as Hs.
  rewrite (squarify_image_run resample image w width height _ Hsize Hc) in Hrun.
  set (side := effective_size (Z.max width height) (size_spinner_value w)) in *.
  destruct (resize resample _ side side) as [resized|e] eqn:Hres; [|discriminate].
  inversion Hrun as [[Hout Hw1]]. clear Hrun.
  pose proof (resize_shaped resample _ _ _ _ Hs Hres) as Hrs.
  assert (Hside : 0 <= side).
  { unfold resize in Hres. rewrite (shaped_buffer_size _ _ Hs) in Hres.
    destruct (Z.of_nat (Z.to_nat (Z.max width height)) =? side) eqn:E.
    - apply Z.eqb_eq in E. lia.
    - cbn [andb] in Hres. destruct (side <? 1) eqn:E1; [discriminate|].
      apply Z.ltb_ge in E1. lia. }
  assert (Hsize2 : Pil.size (ImageRGBA resized) = (side, side)).
  { cbn [Pil.size]. rewrite (shaped_buffer_size _ _ Hrs), Z2Nat.id by exact Hside.
    reflexivity. }
  assert (Hc2 : square_canvas (ImageRGBA resized) = Ok resized).
  { rewrite (square_canvas_eq _ _ _ Hsize2). rewrite Z.max_id, Z.sub_diag.
    change (0 / 2) with 0. cbn [Pil.convert_RGBA].
    rewrite (paste_full _ _ Hrs). reflexivity. }
  exists (squarify_widgets side side (squarify_widgets width height w)).
  split; [|split].
  - rewrite (squarify_image_run resample _ _ side side resized Hsize2 Hc2).
    rewrite squarify_widgets_spinner. fold side. rewrite Z.max_id.
    assert (Hee : effective_size side side = side).
    { unfold effective_size. rewrite Z.ltb_irrefl. reflexivity. }
    rewrite Hee.
    replace side with (Z.of_nat (Z.to_nat side)) at 1 2 by lia.
    rewrite (resize_same resample _ _ Hrs). reflexivity.
  - exact Hc2.
  - rewrite Hsize2. rewrite Z.max_id, Z.sub_diag. repeat split; reflexivity.
Qed.

End SquarifierClaims.

Lemma squarify_output_is_square_witness :
  exists out w',
    squarify_image nearest wide_image initial_widgets = (Ok out, w')
    /\ Pil.size out = (3, 3)
    /\ 3 <= 3
    /\ size_spinner_value w' = 3.
Proof.
  apply (squarify_output_is_square nearest wide_image initial_widgets 3 2);
    [reflexivity | reflexivity].
Defined.

Lemma canvas_is_centered_witness :
  Pil.new 4 4 (255, 255, 255, 0) = Ok (blank 4)
  /\ exists canvas,
       square_canvas tall_image = Ok canvas
       /\ Pil.buffer_size canvas = (4, 4)
       /\ (forall x y, 0 <= x < 4 -> 0 <= y < 4 ->
             Pil.getpixel canvas x y
             = Some (spec_canvas_pixel (Pil.convert_RGBA tall_image) 1 0 x y))
       /\ squarify_image nearest tall_image initial_widgets
          = (Ok (ImageRGBA canvas), squarify_widgets 1 4 initial_widgets).
Proof.
  destruct (canvas_is_centered nearest tall_image initial_widgets 1 4)
    as (Hnew & _ & (canvas & Hc & Hb & Hpix & _ & Hfull) & _).
  - reflexivity.
  - split; [reflexivity | repeat constructor].
  - split; [exact Hnew|]. exists canvas.
    split; [exact Hc|]. split; [exact Hb|]. split; [exact Hpix|].
    apply Hfull. vm_compute. discriminate.
Defined.

Lemma nonpositive_size_fails_in_resize_witness :
  squarify_image nearest one_pixel (set_size_spinner_value 0 initial_widgets)
  = (Raise (ValueError "height and width must be > 0"),
     squarify_widgets 1 1 (set_size_spinner_value 0 initial_widgets)).
Proof.
  apply (nonpositive_size_fails_in_resize nearest one_pixel
           (set_size_spinner_value 0 initial_widgets) 1 1);
    [reflexivity | reflexivity | cbn; lia].
Defined.

Lemma resquarify_is_noop_witness :
  exists w2,
    squarify_image nearest
      (ImageRGBA [[(10, 20, 30, 7); (128, 128, 128, 255)]; [(10, 20, 30, 255); (9, 9, 9, 9)]])
      (squarify_widgets 3 2 (set_size_spinner_value 2 initial_widgets))
    = (Ok (ImageRGBA [[(10, 20, 30, 7); (128, 128, 128, 255)];
                      [(10, 20, 30, 255); (9, 9, 9, 9)]]), w2).
Proof.
  destruct (resquarify_is_noop nearest wide_image
              (ImageRGBA [[(10, 20, 30, 7); (128, 128, 128, 255)];
                          [(10, 20, 30, 255); (9, 9, 9, 9)]])
              (set_size_spinner_value 2 initial_widgets)
              (squarify_widgets 3 2 (set_size_spinner_value 2 initial_widgets)))
    as (w2 & Hrun & _).
  - vm_compute. reflexivity.
  - exists w2. exact Hrun.
Defined.

(** C8, as stated, fails: with desired size 0 nothing is checked first. The
    titles and the maximum are written, the canvas is built, and the error is
    the ValueError of the resize. *)
Lemma nonpositive_size_is_not_validated :
  squarify_image nearest one_pixel (set_size_spinner_value 0 initial_widgets)
  = (Raise (ValueError "height and width must be > 0"),
     mkWidgets "Input resolution: 1x1" "Output resolution: 0x0" (Int 1) 0 "#FFFFFF"
               (mkCheckbox false true) (mkCheckbox false true) [])
  /\ ~ (exists e,
          squarify_image nearest one_pixel (set_size_spinner_value 0 initial_widgets)
          = (Raise e, set_size_spinner_value 0 initial_widgets)).
Proof.
  split; [vm_compute; reflexivity|].
  intros [e He]. vm_compute in He. discriminate He.
Qed.

(** C4, as stated, fails: both functions read widgets that are not among
    their arguments and write widgets. The squarifier changes titles, maximum
    and spinner, and its result follows the spinner; a spinner clamped by one
    run limits the next run on a larger image; the keyer with detection on
    rewrites the colour picker and posts a notification, and its result
    follows the colour picker. *)
Lemma functions_touch_widgets :
  snd (squarify_image nearest one_pixel initial_widgets) <> initial_widgets
  /\ fst (squarify_image nearest wide_image initial_widgets)
     <> fst (squarify_image nearest wide_image (set_size_spinner_value 2 initial_widgets))
  /\ fst (squarify_image nearest wide_image
            (snd (squarify_image nearest one_pixel initial_widgets)))
     <> fst (squarify_image nearest wide_image initial_widgets)
  /\ snd (add_transparency no_names corner_10_20_30 (widgets_with "#FFFFFF" true true))
     <> widgets_with "#FFFFFF" true true
  /\ fst (add_transparency no_names white_black (widgets_with "#FFFFFF" false true))
     <> fst (add_transparency no_names white_black (widgets_with "#000000" false true)).
Proof.
  repeat split; intros H; vm_compute in H; discriminate H.
Qed.

Section Frame.

Variable resample : buffer rgba -> Z * Z -> Z -> Z -> rgba.
Variable other : string -> result (Z * Z * Z).

Lemma add_transparency_frame (image : Image) (w : Widgets) :
  let w' := snd (add_transparency other image w) in
  input_card_title w' = input_card_title w
  /\ output_card_title w' = output_card_title w
  /\ max_static_text_value w' = max_static_text_value w
  /\ size_spinner_value w' = size_spinner_value w
  /\ detect_checkbox w' = detect_checkbox w
  /\ match_checkbox w' = match_checkbox w
  /\ (value (detect_checkbox w) = false -> w' = w).
Proof.
  unfold add_transparency, bind, gets, lift, ret.
  destruct (value (detect_checkbox w)).
  - unfold detect_color.
    destruct (Pil.getpixel _ 0 0) as [[[[fr fg] fb] fa]|];
      [|cbn; repeat split; try reflexivity; discriminate].
    unfold bind, modify, gets. cbn [color_picker_value set_color_picker_value notify_info].
    destruct (getrgb other _) as [[[tr tg] tb]|e];
      cbn; repeat split; try reflexivity; discriminate.
  - destruct (getrgb other (color_picker_value w)) as [[[tr tg] tb]|e];
      cbn; repeat split; reflexivity.
Qed.

(** C4, amended. Each function is a function of its image and of the widgets
    it reads, and writes widgets.  The squarifier reads the size spinner and
    nothing else; it writes the input title, the maximum, the output title
    and the size spinner, which ends as the smaller of its value and
    max(W, H) and so persists to the next call; it leaves colour picker,
    checkboxes and notifications as they were.  The keyer reads the colour
    picker and the value of the detect checkbox and nothing else; with
    detection off it writes nothing; with detection on it writes the colour
    of the corner to the colour picker and posts one notification; in every
    case it leaves titles, maximum, spinner and checkboxes as they were. *)
Theorem widgets_read_and_written (image : Image) (w : Widgets) (width height : Z) :
  Pil.size image = (width, height) ->
  let max_size := Z.max width height in
  let side := Z.min (size_spinner_value w) max_size in
  (forall w2, size_spinner_value w2 = size_spinner_value w ->
     fst (squarify_image resample image w2) = fst (squarify_image resample image w))
  /\ (forall w2, color_picker_value w2 = color_picker_value w ->
        value (detect_checkbox w2) = value (detect_checkbox w) ->
        fst (add_transparency other image w2) = fst (add_transparency other image w))
  /\ snd (squarify_image resample image w)
     = mkWidgets ("Input resolution: " ++ Str.str width ++ "x" ++ Str.str height)
                 ("Output resolution: " ++ Str.str side ++ "x" ++ Str.str side)
                 (Int max_size) side
                 (color_picker_value w) (detect_checkbox w) (match_checkbox w)
                 (notifications w)
  /\ (value (detect_checkbox w) = false -> snd (add_transparency other image w) = w)
  /\ (value (detect_checkbox w) = true ->
      byte_buffer (Pil.convert_RGBA image) ->
      forall r g b a,
        Pil.getpixel (Pil.convert_RGBA image) 0 0 = Some (r, g, b, a) ->
        snd (add_transparency other image w)
        = mkWidgets (input_card_title w) (output_card_title w) (max_static_text_value w)
                    (size_spinner_value w) (hex_color r g b)
                    (detect_checkbox w) (match_checkbox w)
                    (List.app (notifications w)
                       ["Detected background color: " ++ Str.upper (hex_color r g b)
                        ++ " (" ++ Str.str r ++ ", " ++ Str.str g ++ ", " ++ Str.str b
                        ++ ")"]))
  /\ (let w' := snd (add_transparency other image w) in
      input_card_title w' = input_card_title w
      /\ output_card_title w' = output_card_title w
      /\ max_static_text_value w' = max_static_text_value w
      /\ size_spinner_value w' = size_spinner_value w
      /\ detect_checkbox w' = detect_checkbox w
      /\ match_checkbox w' = match_checkbox w).
Proof.
  intros Hsize max_size side.
  pose proof (square_canvas_eq _ _ _ Hsize) as Hcanvas.
  split; [|split; [|split; [|split; [|split]]]].
  - intros w2 Hs.
    rewrite !(squarify_image_run resample image _ width height _ Hsize Hcanvas).
    cbn [fst]. rewrite Hs. reflexivity.
  - intros w2 Hc Hd. unfold add_transparency, bind, gets, lift, ret.
    rewrite Hd. destruct (value (detect_checkbox w)).
    + unfold detect_color.
      destruct (Pil.getpixel _ 0 0) as [[[[fr fg] fb] fa]|]; [|reflexivity].
      unfold bind, modify, gets.
      cbn [color_picker_value set_color_picker_value notify_info].
      destruct (getrgb other _) as [[[tr tg] tb]|e]; reflexivity.
    + rewrite Hc.
      destruct (getrgb other (color_picker_value w)) as [[[tr tg] tb]|e]; reflexivity.
  - rewrite (squarify_image_run resample image _ width height _ Hsize Hcanvas).
    cbn [snd]. unfold squarify_widgets, effective_size. fold max_size.
    destruct (max_size <? size_spinner_value w) eqn:E;
      [apply Z.ltb_lt in E; assert (Hside : side = max_size) by (unfold side; lia)
      |apply Z.ltb_ge in E;
       assert (Hside : side = size_spinner_value w) by (unfold side; lia)];
      clearbody side; subst side; reflexivity.
  - intros Hd. apply (add_transparency_frame image w). exact Hd.
  - intros Hd Hbytes r g b a Hp.
    rewrite (add_transparency_detect other image w r g b a Hd Hbytes Hp).
    reflexivity.
  - pose proof (add_transparency_frame image w) as (H1 & H2 & H3 & H4 & H5 & H6 & _).
    cbv zeta. repeat split; assumption.
Qed.

End Frame.

Lemma widgets_read_and_written_witness :
  (forall w2, size_spinner_value w2 = 500 ->
     fst (squarify_image nearest wide_image w2)
     = fst (squarify_image nearest wide_image initial_widgets))
  /\ snd (squarify_image nearest wide_image initial_widgets)
     = mkWidgets "Input resolution: 3x2" "Output resolution: 3x3" (Int 3) 3 "#FFFFFF"
                 (mkCheckbox false true) (mkCheckbox false true) []
  /\ snd (add_transparency no_names wide_image initial_widgets) = initial_widgets
  /\ snd (add_transparency no_names corner_10_20_30 (widgets_with "#FFFFFF" true true))
     = mkWidgets "Input resolution: N/A" "Output resolution: N/A" (Text "N/A") 500
                 "#0a141e" (mkCheckbox true false) (mkCheckbox true false)
                 ["Detected background color: #0A141E (10, 20, 30)"].
Proof.
  destruct (widgets_read_and_written nearest no_names wide_image initial_widgets 3 2)
    as (Hread & _ & Hwrite & Hoff & _); [reflexivity|].
  destruct (widgets_read_and_written nearest no_names corner_10_20_30
              (widgets_with "#FFFFFF" true true) 2 2)
    as (_ & _ & _ & _ & Hon & _); [reflexivity|].
  split; [exact Hread|]. split; [exact Hwrite|]. split; [exact (Hoff eq_refl)|].
  rewrite (Hon eq_refl ltac:(byte_facts) 10 20 30 7 eq_refl). reflexivity.
Defined.

(** ** More on the squarifier *)

Lemma effective_size_min (max_size desired_size : Z) :
  effective_size max_size desired_size = Z.min desired_size max_size.
Proof.
  unfold effective_size.
  destruct (max_size <? desired_size) eqn:E;
    [apply Z.ltb_lt in E | apply Z.ltb_ge in E]; lia.
Qed.

Lemma size_shaped (image : Image) (width height : Z) :
  Pil.size image = (width, height) ->
  rectangular (Pil.convert_RGBA image) ->
  shaped (Z.to_nat width) (Z.to_nat height) (Pil.convert_RGBA image).
Proof.
  rewrite size_convert. unfold Pil.buffer_size, rectangular.
  intros Hsize Hrect. inversion Hsize. rewrite !Nat2Z.id. exact Hrect.
Qed.

Lemma paste_Forall (P : rgba -> Prop) (dest src : buffer rgba) (cx cy : Z) :
  Forall (Forall P) dest -> Forall (Forall P) src ->
  Forall (Forall P) (Pil.paste dest src cx cy).
Proof.
  intros Hd Hs. unfold Pil.paste.
  apply imap_from_Forall. intros y row Hrow.
  apply imap_from_Forall. intros x p Hp.
  destruct (Pil.getpixel src (x - cx) (y - cy)) as [q|] eqn:Hq.
  - destruct (getpixel_In _ _ _ _ Hq) as (srow & Hsrow & Hin).
    rewrite Forall_forall in Hs. specialize (Hs srow Hsrow).
    rewrite Forall_forall in Hs. exact (Hs q Hin).
  - rewrite Forall_forall in Hd. specialize (Hd row Hrow).
    rewrite Forall_forall in Hd. exact (Hd p Hp).
Qed.

Lemma blank_bytes (n : nat) : byte_buffer (blank n).
Proof.
  apply Forall_forall. intros row Hrow. apply repeat_spec in Hrow. subst row.
  apply Forall_forall. intros p Hp. apply repeat_spec in Hp. subst p.
  unfold transparent_white, byte_pixel, is_byte. lia.
Qed.

Section SquarifierMore.

Variable resample : buffer rgba -> Z * Z -> Z -> Z -> rgba.

(** X1. When the desired size is at least the longer side, the squarifier
    returns the canvas itself: nothing is resampled, whatever the filter, and
    the size spinner is pulled down to the longer side. *)
Theorem full_size_returns_canvas (image : Image) (w : Widgets) (width height : Z) :
  Pil.size image = (width, height) ->
  Z.max width height <= size_spinner_value w ->
  exists canvas,
    square_canvas image = Ok canvas
    /\ squarify_image resample image w
       = (Ok (ImageRGBA canvas), squarify_widgets width height w)
    /\ Pil.buffer_size canvas = (Z.max width height, Z.max width height)
    /\ size_spinner_value (squarify_widgets width height w) = Z.max width height.
Proof.
  intros Hsize Hd.
  pose proof (size_nonneg _ _ _ Hsize) as [Hw Hh].
  pose proof (square_canvas_eq _ _ _ Hsize) as Hc.
  pose proof (square_canvas_shaped _ _ _ _ Hsize Hc) as Hs.
  assert (Heff : effective_size (Z.max width height) (size_spinner_value w)
                 = Z.of_nat (Z.to_nat (Z.max width height)))
    by (rewrite effective_size_min; lia).
  eexists. split; [exact Hc|]. split; [|split].
  - rewrite (squarify_image_run resample image w width height _ Hsize Hc), Heff.
    rewrite (resize_same resample _ _ Hs). reflexivity.
  - rewrite (shaped_buffer_size _ _ Hs), Z2Nat.id by lia. reflexivity.
  - rewrite squarify_widgets_spinner, effective_size_min. lia.
Qed.

(** X2. A square image squarified at its own size or more comes back pixel
    for pixel, alpha included: there is no padding and no shift. *)
Theorem square_image_passes_through (image : Image) (w : Widgets) (side : Z) :
  Pil.size image = (side, side) ->
  rectangular (Pil.convert_RGBA image) ->
  side <= size_spinner_value w ->
  squarify_image resample image w
  = (Ok (ImageRGBA (Pil.convert_RGBA image)), squarify_widgets side side w).
Proof.
  intros Hsize Hrect Hd.
  pose proof (size_shaped _ _ _ Hsize Hrect) as Hs.
  pose proof (size_nonneg _ _ _ Hsize) as [Hside _].
  assert (Hc : square_canvas image = Ok (Pil.convert_RGBA image)).
  { rewrite (square_canvas_eq _ _ _ Hsize), Z.max_id, Z.sub_diag.
    change (0 / 2) with 0. rewrite (paste_full _ _ Hs). reflexivity. }
  rewrite (squarify_image_run resample image w side side _ Hsize Hc).
  rewrite effective_size_min, Z.max_id.
  replace (Z.min (size_spinner_value w) side) with (Z.of_nat (Z.to_nat side)) by lia.
  rewrite (resize_same resample _ _ Hs). reflexivity.
Qed.

(** X3. The size spinner never goes up: after a run it holds the smaller of
    what it held and the longer side of the image, whether the run returned
    or raised. A run on a small image therefore limits the next run: the
    output for a second image is no larger than the first image was. *)
Theorem spinner_only_shrinks (first second : Image) (w : Widgets)
        (width1 height1 width2 height2 : Z) :
  Pil.size first = (width1, height1) ->
  Pil.size second = (width2, height2) ->
  0 < size_spinner_value w ->
  0 < Z.max width1 height1 ->
  let w1 := snd (squarify_image resample first w) in
  size_spinner_value w1 = Z.min (size_spinner_value w) (Z.max width1 height1)
  /\ exists out w2,
       squarify_image resample second w1 = (Ok out, w2)
       /\ Pil.size out
          = (Z.min (size_spinner_value w1) (Z.max width2 height2),
             Z.min (size_spinner_value w1) (Z.max width2 height2))
       /\ fst (Pil.size out) <= Z.max width1 height1.
Proof.
  intros Hsize1 Hsize2 Hd Hmax1 w1.
  pose proof (square_canvas_eq _ _ _ Hsize1) as Hc1.
  pose proof (square_canvas_eq _ _ _ Hsize2) as Hc2.
  pose proof (square_canvas_shaped _ _ _ _ Hsize2 Hc2) as Hs2.
  pose proof (size_nonneg _ _ _ Hsize2) as [Hw2 Hh2].
  assert (Hw1 : size_spinner_value w1
                = Z.min (size_spinner_value w) (Z.max width1 height1)).
  { unfold w1. rewrite (squarify_image_run resample first w _ _ _ Hsize1 Hc1).
    cbn [snd]. rewrite squarify_widgets_spinner. apply effective_size_min. }
  split; [exact Hw1|].
  set (side := Z.min (size_spinner_value w1) (Z.max width2 height2)).
  assert (Hside : 0 <= side) by (unfold side; lia).
  assert (Hres : exists resized,
             resize resample
               (Pil.paste (blank (Z.to_nat (Z.max width2 height2)))
                  (Pil.convert_RGBA second)
                  ((Z.max width2 height2 - width2) / 2)
                  ((Z.max width2 height2 - height2) / 2)) side side = Ok resized).
  { unfold resize. rewrite (shaped_buffer_size _ _ Hs2).
    destruct (Z.of_nat (Z.to_nat (Z.max width2 height2)) =? side) eqn:Eq;
      [eexists; reflexivity|].
    apply Z.eqb_neq in Eq. cbn [andb].
    destruct (side <? 1) eqn:E1; [|eexists; reflexivity].
    exfalso. apply Z.ltb_lt in E1. unfold side in *. lia. }
  destruct Hres as [resized Hres].
  pose proof (resize_shaped resample _ _ _ _ Hs2 Hres) as Hrs.
  exists (ImageRGBA resized), (squarify_widgets width2 height2 w1).
  rewrite (squarify_image_run resample second w1 _ _ _ Hsize2 Hc2).
  rewrite effective_size_min. fold side. rewrite Hres.
  split; [reflexivity|].
  cbn [Pil.size]. rewrite (shaped_buffer_size _ _ Hrs), Z2Nat.id by exact Hside.
  split; [reflexivity|]. cbn [fst]. unfold side. lia.
Qed.

(** X4. On an image with at least one pixel the squarifier returns an image
    exactly when the desired size is positive; otherwise it raises. *)
Theorem squarify_returns_iff_positive (image : Image) (w : Widgets) (width height : Z) :
  Pil.size image = (width, height) ->
  0 < Z.max width height ->
  (exists out w', squarify_image resample image w = (Ok out, w'))
  <-> 0 < size_spinner_value w.
Proof.
  intros Hsize Hmax.
  pose proof (square_canvas_eq _ _ _ Hsize) as Hc.
  pose proof (square_canvas_shaped _ _ _ _ Hsize Hc) as Hs.
  rewrite (squarify_image_run resample image w width height _ Hsize Hc).
  rewrite effective_size_min. unfold resize. rewrite (shaped_buffer_size _ _ Hs).
  set (side := Z.min (size_spinner_value w) (Z.max width height)).
  destruct (Z.of_nat (Z.to_nat (Z.max width height)) =? side) eqn:Eq.
  - apply Z.eqb_eq in Eq. cbn [andb]. split.
    + intros _. unfold side in Eq. lia.
    + intros _. eexists. eexists. reflexivity.
  - apply Z.eqb_neq in Eq. cbn [andb].
    destruct (side <? 1) eqn:E1; cbn [orb].
    + apply Z.ltb_lt in E1. split.
      * intros (out & w' & H). discriminate H.
      * intros Hd. unfold side in E1. lia.
    + apply Z.ltb_ge in E1. split.
      * intros _. unfold side in E1. lia.
      * intros _. eexists. eexists. reflexivity.
Qed.

End SquarifierMore.

(** X5. The canvas holds only bytes when the source does: padding and paste
    keep every channel within 0..255. *)
Theorem canvas_keeps_bytes (image : Image) (canvas : buffer rgba) :
  byte_buffer (Pil.convert_RGBA image) ->
  square_canvas image = Ok canvas ->
  byte_buffer canvas.
Proof.
  intros Hbytes Hc.
  destruct (Pil.size image) as [width height] eqn:Hsize.
  rewrite (square_canvas_eq _ _ _ Hsize) in Hc. inversion Hc.
  apply paste_Forall; [apply blank_bytes | exact Hbytes].
Qed.

(** ** More on the colour keyer *)

Lemma buffer_size_map {A B} (f : A -> B) (d : buffer A) :
  Pil.buffer_size (map (map f) d) = Pil.buffer_size d.
Proof.
  unfold Pil.buffer_size. rewrite length_map.
  destruct d as [|row d]; cbn [map hd]; rewrite ?length_map; reflexivity.
Qed.

Lemma quantize_pixel_byte (p : frgba) : byte_pixel (quantize_pixel p).
Proof.
  assert (H : forall x, is_byte (Np.ubyte x)).
  { intros x. unfold is_byte, Np.ubyte.
    pose proof (Z.mod_pos_bound x 256 ltac:(lia)). lia. }
  destruct p as [[[r g] b] a]. unfold quantize_pixel, byte_pixel, Np.quantize.
  split; [apply H | split; [apply H | split; apply H]].
Qed.

Lemma map_buffer_Forall {A B} (P : B -> Prop) (f : A -> B) (d : buffer A) :
  (forall p, P (f p)) -> Forall (Forall P) (map (map f) d).
Proof.
  intros Hf. apply Forall_forall. intros row Hrow. apply in_map_iff in Hrow.
  destruct Hrow as (row0 & <- & _). apply Forall_forall. intros p Hp.
  apply in_map_iff in Hp. destruct Hp as (q & <- & _). apply Hf.
Qed.

Lemma spec_exact_key_byte (used : Z * Z * Z) (p : rgba) :
  byte_pixel p -> byte_pixel (spec_exact_key used p).
Proof.
  destruct used as [[tr tg] tb], p as [[[r g] b] a].
  intros (Hr & Hg & Hb & Ha). unfold spec_exact_key, byte_pixel.
  split; [exact Hr | split; [exact Hg | split; [exact Hb|]]].
  destruct (((r =? tr) && (g =? tg) && (b =? tb)) || (a =? 0)); unfold is_byte; lia.
Qed.

Lemma spec_exact_key_idempotent (used : Z * Z * Z) (p : rgba) :
  spec_exact_key used (spec_exact_key used p) = spec_exact_key used p.
Proof.
  destruct used as [[tr tg] tb], p as [[[r g] b] a]. unfold spec_exact_key.
  destruct ((r =? tr) && (g =? tg) && (b =? tb)); cbn [orb]; [reflexivity|].
  destruct (a =? 0); reflexivity.
Qed.

Lemma spec_exact_buffer_bytes (used : Z * Z * Z) (d : buffer rgba) :
  byte_buffer d -> byte_buffer (map (map (spec_exact_key used)) d).
Proof.
  intros Hd. apply Forall_forall. intros row Hrow. apply in_map_iff in Hrow.
  destruct Hrow as (row0 & <- & Hrow0). apply Forall_forall. intros p Hp.
  apply in_map_iff in Hp. destruct Hp as (q & <- & Hq).
  apply spec_exact_key_byte.
  unfold byte_buffer in Hd. rewrite Forall_forall in Hd. specialize (Hd row0 Hrow0).
  rewrite Forall_forall in Hd. exact (Hd q Hq).
Qed.

Section KeyerMore.

Variable other : string -> result (Z * Z * Z).

(** Whatever the widgets hold, an image that comes back was masked exactly
    against some colour. *)
Lemma add_transparency_ok (image out : Image) (w w' : Widgets) :
  add_transparency other image w = (Ok out, w') ->
  exists used,
    out = ImageRGBA (map (map quantize_pixel)
                       (map (map (exact_pixel (scale_color used)))
                          (map (map normalize_pixel) (Pil.convert_RGBA image)))).
Proof.
  unfold add_transparency, bind, gets, lift, ret.
  destruct (value (detect_checkbox w)).
  - unfold detect_color.
    destruct (Pil.getpixel _ 0 0) as [[[[fr fg] fb] fa]|]; [|discriminate].
    unfold bind, modify, gets. cbn [color_picker_value set_color_picker_value notify_info].
    destruct (getrgb other _) as [[[tr tg] tb]|e]; [|discriminate].
    intros H. inversion H. exists (tr, tg, tb). reflexivity.
  - destruct (getrgb other (color_picker_value w)) as [[[tr tg] tb]|e]; [|discriminate].
    intros H. inversion H. exists (tr, tg, tb). reflexivity.
Qed.

(** X6. Whenever the keyer returns, the image has the width and height of
    the input, and every channel of it is a byte. *)
Theorem keyer_keeps_size (image out : Image) (w w' : Widgets) :
  add_transparency other image w = (Ok out, w') ->
  Pil.size out = Pil.size image
  /\ byte_buffer (Pil.convert_RGBA out)
  /\ has_alpha_band out = true.
Proof.
  intros Hrun. destruct (add_transparency_ok _ _ _ _ Hrun) as [used ->].
  cbn [Pil.size Pil.convert_RGBA has_alpha_band].
  split; [|split; [|reflexivity]].
  - rewrite !buffer_size_map. symmetry. apply size_convert.
  - apply map_buffer_Forall. apply quantize_pixel_byte.
Qed.

(** X7. Keying is idempotent: with detection off, keying the output again
    with the same colour returns the same image. *)
Theorem keying_twice_is_keying_once (image : Image) (w : Widgets) (used : Z * Z * Z) :
  value (detect_checkbox w) = false ->
  getrgb other (color_picker_value w) = Ok used ->
  byte_color used ->
  byte_buffer (Pil.convert_RGBA image) ->
  exists out,
    add_transparency other image w = (Ok out, w)
    /\ add_transparency other out w = (Ok out, w).
Proof.
  intros Hd Hc Hu Hbytes.
  exists (ImageRGBA (map (map (spec_exact_key used)) (Pil.convert_RGBA image))).
  rewrite !(add_transparency_no_detect other _ w used Hd Hc).
  cbn [Pil.convert_RGBA].
  rewrite !exact_buffer_spec; try assumption; [|apply spec_exact_buffer_bytes; exact Hbytes].
  split; [reflexivity|].
  rewrite buffer_map_map. do 3 f_equal.
  apply map_ext. intros row. apply map_ext. intros p. apply spec_exact_key_idempotent.
Qed.

(** X8. With detection on, the corner pixel of the result is transparent,
    and so is every pixel that has the colour of the corner, whatever alpha
    it had; the colour bands stay. *)
Theorem detected_color_becomes_transparent (image : Image) (w : Widgets) (r g b a : Z) :
  value (detect_checkbox w) = true ->
  byte_buffer (Pil.convert_RGBA image) ->
  Pil.getpixel (Pil.convert_RGBA image) 0 0 = Some (r, g, b, a) ->
  exists out w',
    add_transparency other image w = (Ok (ImageRGBA out), w')
    /\ Pil.getpixel out 0 0 = Some (r, g, b, 0)
    /\ forall x y a',
         Pil.getpixel (Pil.convert_RGBA image) x y = Some (r, g, b, a') ->
         Pil.getpixel out x y = Some (r, g, b, 0).
Proof.
  intros Hd Hbytes Hp.
  pose proof (getpixel_byte _ _ _ _ Hbytes Hp) as (Hr & Hg & Hb & _).
  rewrite (add_transparency_detect other image w r g b a Hd Hbytes Hp).
  rewrite exact_buffer_spec; [|exact (conj Hr (conj Hg Hb))|exact Hbytes].
  eexists. eexists. split; [reflexivity|].
  assert (Hkey : forall x y a',
             Pil.getpixel (Pil.convert_RGBA image) x y = Some (r, g, b, a') ->
             Pil.getpixel (map (map (spec_exact_key (r, g, b))) (Pil.convert_RGBA image)) x y
             = Some (r, g, b, 0)).
  { intros x y a' Hxy. rewrite getpixel_map, Hxy. cbn [option_map spec_exact_key].
    rewrite !Z.eqb_refl. reflexivity. }
  split; [apply (Hkey 0 0 a); exact Hp | exact Hkey].
Qed.

(** X9. After a run with detection on, a second run on the result detects
    the same colour and returns the result unchanged; only one more
    notification is posted. *)
Theorem detect_again_changes_nothing (image : Image) (w : Widgets) (r g b a : Z) :
  value (detect_checkbox w) = true ->
  byte_buffer (Pil.convert_RGBA image) ->
  Pil.getpixel (Pil.convert_RGBA image) 0 0 = Some (r, g, b, a) ->
  exists out w' w'',
    add_transparency other image w = (Ok out, w')
    /\ add_transparency other out w' = (Ok out, w'')
    /\ color_picker_value w'' = color_picker_value w'
    /\ List.length (notifications w'') = S (List.length (notifications w'))
    /\ List.length (notifications w') = S (List.length (notifications w)).
Proof.
  intros Hd Hbytes Hp.
  pose proof (getpixel_byte _ _ _ _ Hbytes Hp) as (Hr & Hg & Hb & _).
  assert (Hu : byte_color (r, g, b)) by exact (conj Hr (conj Hg Hb)).
  pose proof (spec_exact_buffer_bytes (r, g, b) _ Hbytes) as Hbytes'.
  assert (Hp' : Pil.getpixel (map (map (spec_exact_key (r, g, b))) (Pil.convert_RGBA image)) 0 0
                = Some (r, g, b, 0)).
  { rewrite getpixel_map, Hp. cbn [option_map spec_exact_key].
    rewrite !Z.eqb_refl. reflexivity. }
  rewrite (add_transparency_detect other image w r g b a Hd Hbytes Hp).
  rewrite (exact_buffer_spec _ _ Hu Hbytes).
  eexists. eexists. eexists. split; [reflexivity|]. split; [|split; [|split]].
  - rewrite (add_transparency_detect other _ _ r g b 0); cbn [Pil.convert_RGBA];
      [|exact Hd|exact Hbytes'|exact Hp'].
    rewrite (exact_buffer_spec _ _ Hu Hbytes'), buffer_map_map.
    do 3 f_equal.
    apply map_ext. intros row. apply map_ext. intros p. apply spec_exact_key_idempotent.
  - reflexivity.
  - cbn [notifications notify_info set_color_picker_value]. rewrite !length_app.
    cbn [List.length]. lia.
  - cbn [notifications notify_info set_color_picker_value]. rewrite !length_app.
    cbn [List.length]. lia.
Qed.

(** X10. On an image without pixels, detection raises IndexError before it
    writes anything, whatever the colour picker holds. *)
Theorem detect_on_empty_image_raises (image : Image) (w : Widgets) :
  value (detect_checkbox w) = true ->
  Pil.getpixel (Pil.convert_RGBA image) 0 0 = None ->
  exists msg, add_transparency other image w = (Raise (IndexError msg), w).
Proof.
  intros Hd Hp. unfold add_transparency, bind, gets, lift, ret.
  rewrite Hd. unfold detect_color. rewrite getpixel_map, Hp. cbn [option_map].
  eexists. reflexivity.
Qed.

End KeyerMore.

(** ** The pipeline *)

Lemma squarify_widgets_color (width height : Z) (w : Widgets) :
  color_picker_value (squarify_widgets width height w) = color_picker_value w.
Proof.
  unfold squarify_widgets.
  destruct (Z.max width height <? size_spinner_value w); reflexivity.
Qed.

Section PageFacts.

Variable resample : buffer rgba -> Z * Z -> Z -> Z -> rgba.
Variable other : string -> result (Z * Z * Z).
Variable urlopen_read : string -> outcome (list Byte.byte).
Variable Image_open : list Byte.byte -> outcome Image.
Variable save_png : Image -> outcome (list Byte.byte).

Let run_try := process_url_try resample other urlopen_read Image_open save_png.
Let run := process_url resample other urlopen_read Image_open save_png.

(** The body of the [try], step by step. *)
Lemma process_url_try_steps (a : App) :
  run_try a
  = match urlopen_read (text_input_value_input a) with
    | Failed msg => (Failed msg, a)
    | Done image_content =>
        match Image_open image_content with
        | Failed msg => (Failed msg, a)
        | Done image =>
            let a1 := set_input_png_object (Some image) a in
            match (if transparency_checkbox_value a
                   then core (add_transparency other image) a1
                   else (Done image, a1)) with
            | (Failed msg, a2) => (Failed msg, a2)
            | (Done keyed, a2) =>
                match core (squarify_image resample keyed) a2 with
                | (Failed msg, a3) => (Failed msg, a3)
                | (Done out, a3) =>
                    let a4 := set_output_png_object (Some out) a3 in
                    match save_png out with
                    | Failed msg => (Failed msg, a4)
                    | Done download_buf =>
                        (Done tt,
                         set_file_download_disabled false
                           (set_file_download_file (Some download_buf) a4))
                    end
                end
            end
        end
    end.
Proof.
  unfold run_try, process_url_try, pbind, pgets, plift, pmodify, pret.
  destruct (urlopen_read (text_input_value_input a)) as [content|msg]; [|reflexivity].
  destruct (Image_open content) as [image|msg]; [|reflexivity].
  cbn [transparency_checkbox_value set_input_png_object].
  destruct (transparency_checkbox_value a).
  - destruct (core (add_transparency other image) _) as [[keyed|msg] a2]; [|reflexivity].
    destruct (core (squarify_image resample keyed) a2) as [[out|msg] a3]; [|reflexivity].
    destruct (save_png out); reflexivity.
  - destruct (core (squarify_image resample image) _) as [[out|msg] a3]; [|reflexivity].
    destruct (save_png out); reflexivity.
Qed.

(** A call into the core leaves alone what is not a widget of the core. *)
Lemma core_frame {A} (m : M A) (a : App) :
  let a' := snd (core m a) in
  text_input_value_input a' = text_input_value_input a
  /\ submit_button_disabled a' = submit_button_disabled a
  /\ submit_button_loading a' = submit_button_loading a
  /\ transparency_checkbox_value a' = transparency_checkbox_value a
  /\ color_picker_disabled a' = color_picker_disabled a
  /\ input_png_object a' = input_png_object a
  /\ input_png_loading a' = input_png_loading a
  /\ output_png_object a' = output_png_object a
  /\ output_png_loading a' = output_png_loading a
  /\ file_download_file a' = file_download_file a
  /\ file_download_disabled a' = file_download_disabled a
  /\ error_notifications a' = error_notifications a.
Proof.
  unfold core. destruct (m (widgets a)) as [[x|e] w]; cbn; repeat split; reflexivity.
Qed.

Lemma core_widgets {A} (m : M A) (a : App) :
  widgets (snd (core m a)) = snd (m (widgets a)).
Proof.
  unfold core. destruct (m (widgets a)) as [[x|e] w]; reflexivity.
Qed.

Lemma core_result {A} (m : M A) (a : App) :
  fst (core m a)
  = match fst (m (widgets a)) with
    | Ok x => Done x
    | Raise e => Failed (str_exn e)
    end.
Proof.
  unfold core. destruct (m (widgets a)) as [[x|e] w]; reflexivity.
Qed.

Ltac core_fields m a :=
  let H := fresh "Hframe" in
  pose proof (core_frame m a) as H; cbv zeta in H;
  destruct (core m a) as [[? | ?] ?]; cbn [snd] in H;
  decompose [and] H; clear H.

(** X11. However a run ends, the three loading flags are down afterwards,
    and the address, the state of the submit button, the transparency
    checkbox and the state of the colour picker are as they were. *)
Theorem loading_flags_always_cleared (a : App) :
  submit_button_loading (run a) = false
  /\ input_png_loading (run a) = false
  /\ output_png_loading (run a) = false
  /\ text_input_value_input (run a) = text_input_value_input a
  /\ submit_button_disabled (run a) = submit_button_disabled a
  /\ transparency_checkbox_value (run a) = transparency_checkbox_value a
  /\ color_picker_disabled (run a) = color_picker_disabled a.
Proof.
  unfold run, process_url. fold run_try. rewrite process_url_try_steps.
  cbn [text_input_value_input transparency_checkbox_value set_loading
       set_output_png_loading set_input_png_loading set_submit_button_loading].
  destruct (urlopen_read (text_input_value_input a)) as [content|msg];
    [|cbn; repeat split; reflexivity].
  destruct (Image_open content) as [image|msg]; [|cbn; repeat split; reflexivity].
  cbv zeta.
  destruct (transparency_checkbox_value a) eqn:Et.
  - match goal with |- context [core ?m ?x] => core_fields m x end;
      [|cbn in *; repeat split; congruence].
    match goal with |- context [core ?m ?x] => core_fields m x end;
      [|cbn in *; repeat split; congruence].
    destruct (save_png _); cbn in *; repeat split; congruence.
  - match goal with |- context [core ?m ?x] => core_fields m x end;
      [|cbn in *; repeat split; congruence].
    destruct (save_png _); cbn in *; repeat split; congruence.
Qed.

(** What the body of the [try] leaves behind, by how it ends. *)
Lemma process_url_try_outcome (a : App) :
  match run_try a with
  | (Done _, a') =>
      error_notifications a' = error_notifications a
      /\ file_download_disabled a' = false
      /\ exists out download_buf,
           output_png_object a' = Some out
           /\ save_png out = Done download_buf
           /\ file_download_file a' = Some download_buf
  | (Failed _, a') =>
      error_notifications a' = error_notifications a
      /\ file_download_file a' = file_download_file a
      /\ file_download_disabled a' = file_download_disabled a
  end.
Proof.
  rewrite process_url_try_steps.
  destruct (urlopen_read (text_input_value_input a)) as [content|msg];
    [|repeat split; reflexivity].
  destruct (Image_open content) as [image|msg]; [|repeat split; reflexivity].
  cbv zeta.
  destruct (transparency_checkbox_value a) eqn:Et.
  - match goal with |- context [core ?m ?x] => core_fields m x end;
      [|cbn in *; repeat split; congruence].
    match goal with |- context [core ?m ?x] => core_fields m x end;
      [|cbn in *; repeat split; congruence].
    destruct (save_png _) as [download_buf|msg] eqn:Hsave; cbn in *;
      [|repeat split; congruence].
    split; [congruence|]. split; [reflexivity|].
    eexists. eexists. split; [reflexivity | split; [exact Hsave | reflexivity]].
  - match goal with |- context [core ?m ?x] => core_fields m x end;
      [|cbn in *; repeat split; congruence].
    destruct (save_png _) as [download_buf|msg] eqn:Hsave; cbn in *;
      [|repeat split; congruence].
    split; [congruence|]. split; [reflexivity|].
    eexists. eexists. split; [reflexivity | split; [exact Hsave | reflexivity]].
Qed.

(** X12. A run ends in one of two ways. Either it posts no error, enables the
    download and offers the encoded output image that the output pane shows;
    or it posts exactly one error notification and leaves the download - the
    file and whether it is enabled - as it was. *)
Theorem failure_keeps_download (a : App) :
  (error_notifications (run a) = error_notifications a
   /\ file_download_disabled (run a) = false
   /\ exists out download_buf,
        output_png_object (run a) = Some out
        /\ save_png out = Done download_buf
        /\ file_download_file (run a) = Some download_buf)
  \/ (exists msg,
        error_notifications (run a) = (error_notifications a ++ [msg])%list
        /\ file_download_file (run a) = file_download_file a
        /\ file_download_disabled (run a) = file_download_disabled a).
Proof.
  unfold run, process_url. fold run_try.
  pose proof (process_url_try_outcome (set_loading true a)) as Hout.
  destruct (run_try (set_loading true a)) as [[u|msg] a'].
  - left. destruct Hout as (He & Hd & out & download_buf & Ho & Hs & Hf).
    cbn in *. split; [exact He|]. split; [exact Hd|].
    exists out, download_buf. split; [exact Ho | split; [exact Hs | exact Hf]].
  - right. exists msg. destruct Hout as (He & Hf & Hd).
    cbn in *. rewrite He. split; [reflexivity | split; assumption].
Qed.

(** X13. When the address cannot be fetched or the file cannot be decoded,
    the run changes nothing but the notifications: the panes, the download
    and the widgets of the core are as before, and the text of the exception
    is posted. *)
Theorem failed_download_changes_nothing (a : App) (msg : string) :
  urlopen_read (text_input_value_input a) = Failed msg
  \/ (exists image_content,
        urlopen_read (text_input_value_input a) = Done image_content
        /\ Image_open image_content = Failed msg) ->
  run a = set_loading false (notify_error msg a).
Proof.
  intros H. unfold run, process_url. fold run_try. rewrite process_url_try_steps.
  cbn [text_input_value_input set_loading
       set_output_png_loading set_input_png_loading set_submit_button_loading].
  destruct H as [Hf | (content & Hf & Ho)]; rewrite Hf; [reflexivity|].
  rewrite Ho. reflexivity.
Qed.

(** X14. A desired size that is not positive fails late: the input pane
    already shows the new image and the output title already announces the
    size, while the output pane and the download still hold what they held;
    the error posted is the one of the resize. *)
Theorem failed_squarify_updates_input_only (a : App) (image_content : list Byte.byte)
        (image : Image) (width height : Z) :
  urlopen_read (text_input_value_input a) = Done image_content ->
  Image_open image_content = Done image ->
  transparency_checkbox_value a = false ->
  Pil.size image = (width, height) ->
  0 < Z.max width height ->
  size_spinner_value (widgets a) <= 0 ->
  input_png_object (run a) = Some image
  /\ output_png_object (run a) = output_png_object a
  /\ file_download_file (run a) = file_download_file a
  /\ file_download_disabled (run a) = file_download_disabled a
  /\ error_notifications (run a)
     = (error_notifications a ++ ["height and width must be > 0"])%list
  /\ widgets (run a) = squarify_widgets width height (widgets a)
  /\ output_card_title (widgets (run a))
     = "Output resolution: " ++ Str.str (size_spinner_value (widgets a)) ++ "x"
       ++ Str.str (size_spinner_value (widgets a)).
Proof.
  intros Hf Ho Ht Hsize Hmax Hd.
  pose proof (square_canvas_eq _ _ _ Hsize) as Hc.
  pose proof (square_canvas_shaped _ _ _ _ Hsize Hc) as Hs.
  assert (Heff : effective_size (Z.max width height) (size_spinner_value (widgets a))
                 = size_spinner_value (widgets a))
    by (rewrite effective_size_min; lia).
  assert (Hrun : squarify_image resample image (widgets a)
                 = (Raise (ValueError "height and width must be > 0"),
                    squarify_widgets width height (widgets a))).
  { rewrite (squarify_image_run resample image _ width height _ Hsize Hc), Heff.
    unfold resize. rewrite (shaped_buffer_size _ _ Hs).
    destruct (Z.of_nat (Z.to_nat (Z.max width height)) =? size_spinner_value (widgets a))
      eqn:E; [apply Z.eqb_eq in E; lia|].
    destruct (size_spinner_value (widgets a) <? 1) eqn:E1; [reflexivity|].
    apply Z.ltb_ge in E1. lia. }
  unfold run, process_url. fold run_try. rewrite process_url_try_steps.
  cbn [text_input_value_input transparency_checkbox_value set_loading
       set_output_png_loading set_input_png_loading set_submit_button_loading].
  rewrite Hf, Ho, Ht. cbv zeta. unfold core.
  cbn [widgets set_loading set_input_png_object set_output_png_loading
       set_input_png_loading set_submit_button_loading]. rewrite Hrun.
  cbn. repeat split; try reflexivity.
  unfold squarify_widgets. rewrite Heff.
  destruct (Z.max width height <? size_spinner_value (widgets a)); reflexivity.
Qed.

Lemma getpixel_origin_height {A} (d : buffer A) (p : A) :
  Pil.getpixel d 0 0 = Some p -> 0 < snd (Pil.buffer_size d).
Proof.
  unfold Pil.getpixel, Pil.buffer_size. cbn [orb Z.ltb Z.compare Z.to_nat nth_error snd].
  destruct d as [|row d]; [discriminate|]. intros _. cbn [List.length]. lia.
Qed.

(** X15. With transparency and detection on and a desired size of at least
    the longer side, the output pane gets a square image whose top left
    pixel is transparent - it is padding, or it is the corner that was
    keyed - while the input pane keeps the image as it was fetched. *)
Theorem detected_corner_is_transparent_in_output
        (a : App) (image_content : list Byte.byte) (image : Image)
        (r g b alpha width height : Z) :
  urlopen_read (text_input_value_input a) = Done image_content ->
  Image_open image_content = Done image ->
  transparency_checkbox_value a = true ->
  value (detect_checkbox (widgets a)) = true ->
  byte_buffer (Pil.convert_RGBA image) ->
  Pil.getpixel (Pil.convert_RGBA image) 0 0 = Some (r, g, b, alpha) ->
  Pil.size image = (width, height) ->
  Z.max width height <= size_spinner_value (widgets a) ->
  exists out,
    output_png_object (run a) = Some (ImageRGBA out)
    /\ input_png_object (run a) = Some image
    /\ Pil.buffer_size out = (Z.max width height, Z.max width height)
    /\ (exists p, Pil.getpixel out 0 0 = Some p /\ snd p = 0)
    /\ color_picker_value (widgets (run a)) = hex_color r g b.
Proof.
  intros Hf Ho Ht Hd Hbytes Hp Hsize Hspin.
  pose proof (getpixel_byte _ _ _ _ Hbytes Hp) as (Hr & Hg & Hb & _).
  pose proof (size_nonneg _ _ _ Hsize) as [Hw Hh].
  assert (Hmax : 0 < Z.max width height).
  { pose proof (getpixel_origin_height _ _ Hp) as Hpos.
    rewrite <- size_convert, Hsize in Hpos. cbn [snd] in Hpos. lia. }
  set (keyed := map (map (spec_exact_key (r, g, b))) (Pil.convert_RGBA image)).
  set (w1 := notify_info
               ("Detected background color: " ++ Str.upper (hex_color r g b) ++ " ("
                ++ Str.str r ++ ", " ++ Str.str g ++ ", " ++ Str.str b ++ ")")
               (set_color_picker_value (hex_color r g b) (widgets a))).
  assert (Hkey : add_transparency other image (widgets a) = (Ok (ImageRGBA keyed), w1)).
  { rewrite (add_transparency_detect other image _ r g b alpha Hd Hbytes Hp).
    rewrite exact_buffer_spec; [reflexivity|exact (conj Hr (conj Hg Hb))|exact Hbytes]. }
  assert (Hsize' : Pil.size (ImageRGBA keyed) = (width, height)).
  { cbn [Pil.size]. unfold keyed. rewrite buffer_size_map, <- size_convert. exact Hsize. }
  pose proof (square_canvas_eq _ _ _ Hsize') as Hc.
  pose proof (square_canvas_shaped _ _ _ _ Hsize' Hc) as Hs.
  cbn [Pil.convert_RGBA] in Hc, Hs.
  set (center_x := (Z.max width height - width) / 2) in *.
  set (center_y := (Z.max width height - height) / 2) in *.
  set (canvas := Pil.paste (blank (Z.to_nat (Z.max width height))) keyed center_x center_y) in *.
  assert (Hsq : squarify_image resample (ImageRGBA keyed) w1
                = (Ok (ImageRGBA canvas), squarify_widgets width height w1)).
  { rewrite (squarify_image_run resample _ w1 width height _ Hsize' Hc).
    rewrite effective_size_min.
    replace (Z.min (size_spinner_value w1) (Z.max width height))
      with (Z.of_nat (Z.to_nat (Z.max width height))) by (cbn; lia).
    rewrite (resize_same resample _ _ Hs). reflexivity. }
  assert (Htry : run_try (set_loading true a)
                 = let a3 := set_output_png_object (Some (ImageRGBA canvas))
                               (set_widgets (squarify_widgets width height w1)
                                  (set_widgets w1
                                     (set_input_png_object (Some image)
                                        (set_loading true a)))) in
                   match save_png (ImageRGBA canvas) with
                   | Failed msg => (Failed msg, a3)
                   | Done download_buf =>
                       (Done tt,
                        set_file_download_disabled false
                          (set_file_download_file (Some download_buf) a3))
                   end).
  { rewrite process_url_try_steps.
    cbn [text_input_value_input transparency_checkbox_value set_loading
         set_output_png_loading set_input_png_loading set_submit_button_loading].
    rewrite Hf, Ho, Ht. cbv zeta. unfold core.
    cbn [widgets set_loading set_input_png_object set_output_png_loading
         set_input_png_loading set_submit_button_loading]. rewrite Hkey.
    cbn [widgets set_widgets]. rewrite Hsq. reflexivity. }
  exists canvas.
  unfold run, process_url. fold run_try. rewrite Htry. cbv zeta.
  assert (Hcorner : exists p, Pil.getpixel canvas 0 0 = Some p /\ snd p = 0).
  { unfold canvas. rewrite getpixel_paste by lia.
    rewrite getpixel_blank by lia. cbn [option_map].
    assert (Hcx : 0 <= center_x) by (apply Z.div_pos; lia).
    assert (Hcy : 0 <= center_y) by (apply Z.div_pos; lia).
    destruct (Z.eq_dec center_x 0) as [Ex|Ex];
      [destruct (Z.eq_dec center_y 0) as [Ey|Ey]|].
    - rewrite Ex, Ey. cbn [Z.sub Z.opp Z.add]. unfold keyed.
      rewrite getpixel_map, Hp. cbn [option_map spec_exact_key].
      rewrite !Z.eqb_refl. eexists. split; reflexivity.
    - unfold Pil.getpixel at 1.
      destruct (0 - center_y <? 0) eqn:E; [|apply Z.ltb_ge in E; lia].
      rewrite orb_true_r. eexists. split; reflexivity.
    - unfold Pil.getpixel at 1.
      destruct (0 - center_x <? 0) eqn:E; [|apply Z.ltb_ge in E; lia].
      cbn [orb]. eexists. split; reflexivity. }
  assert (Hbs : Pil.buffer_size canvas = (Z.max width height, Z.max width height)).
  { rewrite (shaped_buffer_size _ _ Hs), Z2Nat.id by lia. reflexivity. }
  destruct (save_png (ImageRGBA canvas));
    (split; [reflexivity|]); (split; [reflexivity|]); (split; [exact Hbs|]);
    (split; [exact Hcorner|]);
    cbn [widgets set_loading set_output_png_loading set_input_png_loading
         set_submit_button_loading set_file_download_disabled set_file_download_file
         set_output_png_object set_widgets notify_error];
    rewrite squarify_widgets_color; reflexivity.
Qed.

End PageFacts.

(** ** The widget links *)

Lemma fire_keeps_links (ev : event) (a : App) : links_hold a -> links_hold (fire ev a).
Proof.
  intros (Hs & Hd & Hm). unfold links_hold.
  destruct ev as [new|new|new]; cbn [fire].
  - destruct (String.eqb new (text_input_value_input a)); [repeat split; assumption|].
    cbn. repeat split; assumption.
  - destruct (Bool.eqb new (transparency_checkbox_value a)); [repeat split; assumption|].
    cbn. unfold disable_transparency_widgets. repeat split; try reflexivity. exact Hs.
  - destruct (Bool.eqb new (value (detect_checkbox (widgets a))));
      [repeat split; assumption|].
    cbn. repeat split; assumption.
Qed.

Lemma fire_keeps_core (ev : event) (a : App) :
  let a' := fire ev a in
  size_spinner_value (widgets a') = size_spinner_value (widgets a)
  /\ color_picker_value (widgets a') = color_picker_value (widgets a)
  /\ value (match_checkbox (widgets a')) = value (match_checkbox (widgets a))
  /\ notifications (widgets a') = notifications (widgets a)
  /\ input_png_object a' = input_png_object a
  /\ output_png_object a' = output_png_object a
  /\ file_download_file a' = file_download_file a
  /\ file_download_disabled a' = file_download_disabled a.
Proof.
  destruct ev as [new|new|new]; cbn [fire].
  - destruct (String.eqb new (text_input_value_input a)); cbn; repeat split; reflexivity.
  - destruct (Bool.eqb new (transparency_checkbox_value a)); cbn; repeat split; reflexivity.
  - destruct (Bool.eqb new (value (detect_checkbox (widgets a))));
      cbn; repeat split; reflexivity.
Qed.

(** X16. Whatever is typed and clicked, in any order, the links keep the
    page consistent: the submit button is disabled exactly when the address
    is empty, the detect and match checkboxes are disabled exactly when the
    transparency checkbox is unchecked; and the events never touch the
    desired size, the picked colour, the panes or the download. *)
Theorem links_keep_page_consistent (evs : list event) :
  let a := fire_all evs initial_app in
  submit_button_disabled a = Nat.eqb (String.length (text_input_value_input a)) 0
  /\ disabled (detect_checkbox (widgets a)) = negb (transparency_checkbox_value a)
  /\ disabled (match_checkbox (widgets a)) = negb (transparency_checkbox_value a)
  /\ size_spinner_value (widgets a) = 500
  /\ color_picker_value (widgets a) = "#FFFFFF"
  /\ input_png_object a = None
  /\ output_png_object a = None
  /\ file_download_file a = None
  /\ file_download_disabled a = true.
Proof.
  assert (Hgen : forall evs a0,
             links_hold a0 ->
             links_hold (fire_all evs a0)
             /\ size_spinner_value (widgets (fire_all evs a0)) = size_spinner_value (widgets a0)
             /\ color_picker_value (widgets (fire_all evs a0)) = color_picker_value (widgets a0)
             /\ input_png_object (fire_all evs a0) = input_png_object a0
             /\ output_png_object (fire_all evs a0) = output_png_object a0
             /\ file_download_file (fire_all evs a0) = file_download_file a0
             /\ file_download_disabled (fire_all evs a0) = file_download_disabled a0).
  { clear evs. intros evs. induction evs as [|ev evs IH]; intros a0 H0.
    - cbn. repeat split; try reflexivity; apply H0.
    - unfold fire_all in *. cbn [fold_left].
      destruct (IH (fire ev a0) (fire_keeps_links ev a0 H0))
        as (Hl & H1 & H2 & H3 & H4 & H5 & H6).
      pose proof (fire_keeps_core ev a0) as (K1 & K2 & _ & _ & K3 & K4 & K5 & K6).
      split; [exact Hl|]. repeat split; congruence. }
  destruct (Hgen evs initial_app) as ((Hs & Hd & Hm) & H1 & H2 & H3 & H4 & H5 & H6).
  { unfold links_hold. cbn. repeat split; reflexivity. }
  cbv zeta. repeat split; assumption.
Qed.

(** X17. While the transparency checkbox is unchecked the colour picker is
    disabled, after any series of events a user can produce. *)
Theorem picker_disabled_without_transparency (evs : list event) :
  user_can evs initial_app ->
  transparency_checkbox_value (fire_all evs initial_app) = false ->
  color_picker_disabled (fire_all evs initial_app) = true.
Proof.
  assert (Hgen : forall evs a0,
             links_hold a0 ->
             (transparency_checkbox_value a0 = false -> color_picker_disabled a0 = true) ->
             user_can evs a0 ->
             transparency_checkbox_value (fire_all evs a0) = false ->
             color_picker_disabled (fire_all evs a0) = true).
  { clear evs. intros evs. induction evs as [|ev evs IH]; intros a0 Hl Hinv Hcan Ht.
    - exact (Hinv Ht).
    - unfold fire_all in *. cbn [fold_left] in *.
      destruct Hcan as [Hev Hcan].
      apply (IH (fire ev a0)); [apply fire_keeps_links; exact Hl| |exact Hcan|exact Ht].
      destruct Hl as (_ & Hd & _).
      destruct ev as [new|new|new]; cbn [fire].
      + destruct (String.eqb new (text_input_value_input a0)); [exact Hinv|].
        cbn. exact Hinv.
      + destruct (Bool.eqb new (transparency_checkbox_value a0)); [exact Hinv|].
        cbn. unfold disable_transparency_widgets. intros ->. reflexivity.
      + destruct (Bool.eqb new (value (detect_checkbox (widgets a0)))); [exact Hinv|].
        cbn. intros Hoff. rewrite Hev in Hd. rewrite Hoff in Hd. discriminate Hd. }
  apply Hgen.
  - unfold links_hold. cbn. repeat split; reflexivity.
  - intros _. reflexivity.
Qed.

(** ** The colour strings, once more *)

Lemma format_02x_upper (k : Z) :
  is_byte k ->
  exists hi lo,
    Str.format_02x k = String hi (String lo EmptyString)
    /\ Str.lower_ascii (Str.upper_ascii hi) = hi
    /\ Str.lower_ascii (Str.upper_ascii lo) = lo.
Proof.
  intros Hk.
  assert (Hc : upper_reads_back k = true).
  { apply (bytes_forall upper_reads_back); [vm_compute; reflexivity | exact Hk]. }
  unfold upper_reads_back in Hc.
  destruct (Str.format_02x k) as [|hi [|lo [|c rest]]]; try discriminate.
  exists hi, lo. apply andb_prop in Hc. destruct Hc as [Hhi Hlo].
  apply Ascii.eqb_eq in Hhi. apply Ascii.eqb_eq in Hlo. repeat split; assumption.
Qed.

(** X18. The colour string that detection writes has seven characters and
    reads back as the detected colour, and so does the upper-case form that
    the notification shows. *)
Theorem detected_hex_reads_back (other : string -> result (Z * Z * Z)) (r g b : Z) :
  is_byte r -> is_byte g -> is_byte b ->
  String.length (hex_color r g b) = 7%nat
  /\ getrgb other (hex_color r g b) = Ok (r, g, b)
  /\ getrgb other (Str.upper (hex_color r g b)) = Ok (r, g, b).
Proof.
  intros Hr Hg Hb.
  pose proof (getrgb_hex_color other r g b Hr Hg Hb) as Hread.
  destruct (format_02x_upper r Hr) as (r1 & r2 & Er & Ur1 & Ur2).
  destruct (format_02x_upper g Hg) as (g1 & g2 & Eg & Ug1 & Ug2).
  destruct (format_02x_upper b Hb) as (b1 & b2 & Eb & Ub1 & Ub2).
  destruct (format_02x_byte r Hr) as (r1' & r2' & Er' & Lr1 & Lr2 & _).
  destruct (format_02x_byte g Hg) as (g1' & g2' & Eg' & Lg1 & Lg2 & _).
  destruct (format_02x_byte b Hb) as (b1' & b2' & Eb' & Lb1 & Lb2 & _).
  rewrite Er in Er'. rewrite Eg in Eg'. rewrite Eb in Eb'.
  inversion Er'. inversion Eg'. inversion Eb'. subst.
  split; [|split; [exact Hread|]].
  - unfold hex_color. rewrite Er, Eg, Eb. reflexivity.
  - rewrite <- Hread. unfold getrgb. f_equal.
    unfold hex_color. rewrite Er, Eg, Eb.
    cbn [append Str.lower Str.upper Str.map_string].
    rewrite Ur1, Ur2, Ug1, Ug2, Ub1, Ub2, Lr1, Lr2, Lg1, Lg2, Lb1, Lb2. reflexivity.
Qed.

(** ** The fade of lines 127-139 *)

Lemma float_rank_leb (x y : float) (rx ry : Z) :
  float_rank (Prim2SF x) = Some rx ->
  float_rank (Prim2SF y) = Some ry ->
  PrimFloat.leb x y = (rx <=? ry).
Proof.
  rewrite FloatAxioms.leb_spec. unfold float_rank, SFleb, SFcompare.
  destruct (Prim2SF x) as [sx|sx| |sx mx ex], (Prim2SF y) as [sy|sy| |sy my ey];
    try discriminate;
    repeat match goal with
           | |- context [if ?s then _ else _] =>
               match type of s with
               | bool => destruct s eqn:?
               end
           end;
    try discriminate; intros Hx Hy; inversion Hx; inversion Hy; subst; clear Hx Hy;
    repeat match goal with
           | H : (_ && _) = true |- _ => apply andb_prop in H; destruct H
           | H : (_ <? _) = true |- _ => apply Z.ltb_lt in H
           end;
    change (2 ^ 53) with 9007199254740992 in *; symmetry.
  - reflexivity.
  - apply Z.leb_le. lia.
  - apply Z.leb_gt. lia.
  - rewrite Pos.compare_cont_spec. cbn [Pos.switch_Eq].
    destruct (Z.compare_spec ex ey) as [He|He|He].
    + subst ey. rewrite Pos2Z.inj_compare.
      destruct (Z.compare_spec (Z.pos mx) (Z.pos my)) as [Hm|Hm|Hm];
        [apply Z.leb_le | apply Z.leb_le | apply Z.leb_gt]; lia.
    + apply Z.leb_le. lia.
    + apply Z.leb_gt. lia.
Qed.

Lemma float_rank_eqb_refl (x : float) (rx : Z) :
  float_rank (Prim2SF x) = Some rx -> PrimFloat.eqb x x = true.
Proof.
  rewrite FloatAxioms.eqb_spec. unfold float_rank, SFeqb, SFcompare.
  destruct (Prim2SF x) as [sx|sx| |sx mx ex]; try discriminate; [reflexivity|].
  destruct sx; [discriminate|]. intros _.
  rewrite Z.compare_refl, Pos.compare_cont_spec, Pos.compare_refl. reflexivity.
Qed.

(** What the exhaustive evaluation over all pairs of bytes gives: the
    distance has a rank between the separators of its byte distance, and is
    written out as that byte distance or one less. *)
Lemma fade_channel_facts (p t : Z) :
  is_byte p -> is_byte t ->
  exists rank,
    float_rank (Prim2SF (fade_distance p t)) = Some rank
    /\ separator (Z.abs (p - t)) <= rank < separator (Z.abs (p - t) + 1)
    /\ (Np.quantize (fade_distance p t) = Z.abs (p - t)
        \/ (Np.quantize (fade_distance p t) = Z.abs (p - t) - 1 /\ 0 < Z.abs (p - t))).
Proof.
  intros Hp Ht.
  assert (Hc : fade_channel_ok p t = true).
  { apply (byte_pairs_forall fade_channel_ok); [vm_compute; reflexivity | exact Hp | exact Ht]. }
  unfold fade_channel_ok in Hc.
  destruct (float_rank (Prim2SF (fade_distance p t))) as [rank|]; [|discriminate].
  exists rank. split; [reflexivity|].
  apply andb_prop in Hc. destruct Hc as [Hc Hq].
  apply andb_prop in Hc. destruct Hc as [Hlo Hhi].
  apply Z.leb_le in Hlo. apply Z.ltb_lt in Hhi. split; [lia|].
  apply orb_prop in Hq. destruct Hq as [Hq|Hq].
  - left. apply Z.eqb_eq. exact Hq.
  - right. apply andb_prop in Hq. destruct Hq as [Hq Hk].
    apply Z.eqb_eq in Hq. apply Z.ltb_lt in Hk. split; assumption.
Qed.

Lemma separator_monotone (k1 k2 : Z) :
  is_byte k1 -> is_byte k2 -> k1 < k2 -> separator (k1 + 1) <= separator k2.
Proof.
  intros H1 H2 Hlt.
  assert (Hc : separators_ok k1 k2 = true).
  { apply (byte_pairs_forall separators_ok); [vm_compute; reflexivity | exact H1 | exact H2]. }
  unfold separators_ok in Hc.
  destruct (k1 <? k2) eqn:E; [|apply Z.ltb_ge in E; lia].
  apply Z.leb_le. exact Hc.
Qed.

(** The larger of two channel distances is the distance of the channel that
    is further from the colour. *)
Lemma fmax_fade_distance (p1 t1 p2 t2 : Z) :
  is_byte p1 -> is_byte t1 -> is_byte p2 -> is_byte t2 ->
  exists p t,
    is_byte p /\ is_byte t
    /\ Np.fmax (fade_distance p1 t1) (fade_distance p2 t2) = fade_distance p t
    /\ Z.abs (p - t) = Z.max (Z.abs (p1 - t1)) (Z.abs (p2 - t2)).
Proof.
  intros Hp1 Ht1 Hp2 Ht2.
  destruct (fade_channel_facts p1 t1 Hp1 Ht1) as (r1 & Hr1 & Hb1 & _).
  destruct (fade_channel_facts p2 t2 Hp2 Ht2) as (r2 & Hr2 & Hb2 & _).
  assert (Hk1 : is_byte (Z.abs (p1 - t1))) by (unfold is_byte in *; lia).
  assert (Hk2 : is_byte (Z.abs (p2 - t2))) by (unfold is_byte in *; lia).
  unfold Np.fmax.
  rewrite (float_rank_leb _ _ _ _ Hr2 Hr1), (float_rank_eqb_refl _ _ Hr1).
  cbn [negb]. rewrite orb_false_r.
  destruct (r2 <=? r1) eqn:E.
  - apply Z.leb_le in E. exists p1, t1.
    split; [exact Hp1|]. split; [exact Ht1|]. split; [reflexivity|].
    destruct (Z.lt_ge_cases (Z.abs (p1 - t1)) (Z.abs (p2 - t2))) as [Hlt|Hge]; [|lia].
    pose proof (separator_monotone _ _ Hk1 Hk2 Hlt). lia.
  - apply Z.leb_gt in E. exists p2, t2.
    split; [exact Hp2|]. split; [exact Ht2|]. split; [reflexivity|].
    destruct (Z.lt_ge_cases (Z.abs (p2 - t2)) (Z.abs (p1 - t1))) as [Hlt|Hge]; [|lia].
    pose proof (separator_monotone _ _ Hk2 Hk1 Hlt). lia.
Qed.

(** X19. The fade, where it to run, keeps the colour bands and writes as
    alpha the largest channel distance in bytes or, because the write-out
    drops the fraction, one less; the alpha of the source plays no part. In
    particular a pixel of the colour itself gets alpha 0. *)
Theorem fade_alpha_within_one (used : Z * Z * Z) (p : rgba) :
  byte_color used -> byte_pixel p ->
  exists alpha,
    quantize_pixel (fade_pixel (scale_color used) (normalize_pixel p))
    = (fst (fst (fst p)), snd (fst (fst p)), snd (fst p), alpha)
    /\ (alpha = snd (spec_fade_key used p)
        \/ (alpha = snd (spec_fade_key used p) - 1 /\ 0 < snd (spec_fade_key used p))).
Proof.
  destruct used as [[tr tg] tb], p as [[[r g] b] a].
  intros (Htr & Htg & Htb) (Hr & Hg & Hb & Ha).
  unfold normalize_pixel, scale_color, fade_pixel, quantize_pixel, spec_fade_key.
  cbn [fst snd]. rewrite !quantize_normalize by assumption.
  fold (fade_distance r tr). fold (fade_distance g tg). fold (fade_distance b tb).
  destruct (fmax_fade_distance r tr g tg Hr Htr Hg Htg) as (p1 & t1 & Hp1 & Ht1 & E1 & K1).
  rewrite E1.
  destruct (fmax_fade_distance p1 t1 b tb Hp1 Ht1 Hb Htb) as (p2 & t2 & Hp2 & Ht2 & E2 & K2).
  rewrite E2. rewrite K1 in K2. rewrite <- K2.
  destruct (fade_channel_facts p2 t2 Hp2 Ht2) as (_ & _ & _ & Hq).
  eexists. split; [reflexivity|]. exact Hq.
Qed.

(** ** The further properties on examples *)

Lemma full_size_returns_canvas_witness :
  exists canvas,
    square_canvas wide_image = Ok canvas
    /\ squarify_image nearest wide_image initial_widgets
       = (Ok (ImageRGBA canvas), squarify_widgets 3 2 initial_widgets)
    /\ Pil.buffer_size canvas = (3, 3)
    /\ size_spinner_value (squarify_widgets 3 2 initial_widgets) = 3.
Proof.
  apply (full_size_returns_canvas nearest wide_image initial_widgets 3 2);
    [reflexivity | cbn; lia].
Defined.

Lemma square_image_passes_through_witness :
  squarify_image nearest square_image initial_widgets
  = (Ok (ImageRGBA (Pil.convert_RGBA square_image)), squarify_widgets 2 2 initial_widgets).
Proof.
  apply (square_image_passes_through nearest square_image initial_widgets 2);
    [reflexivity | split; [reflexivity | repeat constructor] | cbn; lia].
Defined.

Lemma spinner_only_shrinks_witness :
  size_spinner_value (snd (squarify_image nearest one_pixel initial_widgets))
  = Z.min 500 1
  /\ exists out w2,
       squarify_image nearest wide_image
         (snd (squarify_image nearest one_pixel initial_widgets)) = (Ok out, w2)
       /\ Pil.size out
          = (Z.min (size_spinner_value
                      (snd (squarify_image nearest one_pixel initial_widgets))) 3,
             Z.min (size_spinner_value
                      (snd (squarify_image nearest one_pixel initial_widgets))) 3)
       /\ fst (Pil.size out) <= 1.
Proof.
  apply (spinner_only_shrinks nearest one_pixel wide_image initial_widgets 1 1 3 2);
    reflexivity.
Defined.

Lemma squarify_returns_iff_positive_witness :
  (exists out w', squarify_image nearest wide_image initial_widgets = (Ok out, w'))
  <-> 0 < 500.
Proof.
  apply (squarify_returns_iff_positive nearest wide_image initial_widgets 3 2); reflexivity.
Defined.

Lemma canvas_keeps_bytes_witness :
  byte_buffer
    [[(255, 255, 255, 0); (1, 2, 3, 255); (255, 255, 255, 0); (255, 255, 255, 0)];
     [(255, 255, 255, 0); (4, 5, 6, 255); (255, 255, 255, 0); (255, 255, 255, 0)];
     [(255, 255, 255, 0); (7, 8, 9, 255); (255, 255, 255, 0); (255, 255, 255, 0)];
     [(255, 255, 255, 0); (1, 1, 1, 255); (255, 255, 255, 0); (255, 255, 255, 0)]].
Proof.
  apply (canvas_keeps_bytes tall_image); [byte_facts | reflexivity].
Defined.

Lemma keyer_keeps_size_witness :
  Pil.size (ImageRGBA [[(255, 255, 255, 0); (0, 0, 0, 255)]]) = Pil.size white_black
  /\ byte_buffer (Pil.convert_RGBA (ImageRGBA [[(255, 255, 255, 0); (0, 0, 0, 255)]]))
  /\ has_alpha_band (ImageRGBA [[(255, 255, 255, 0); (0, 0, 0, 255)]]) = true.
Proof.
  apply (keyer_keeps_size no_names white_black
           (ImageRGBA [[(255, 255, 255, 0); (0, 0, 0, 255)]])
           (widgets_with "#FFFFFF" false true) (widgets_with "#FFFFFF" false true)).
  vm_compute. reflexivity.
Defined.

Lemma keying_twice_is_keying_once_witness :
  exists out,
    add_transparency no_names wide_image (widgets_with "#0a141e" false true)
    = (Ok out, widgets_with "#0a141e" false true)
    /\ add_transparency no_names out (widgets_with "#0a141e" false true)
       = (Ok out, widgets_with "#0a141e" false true).
Proof.
  apply (keying_twice_is_keying_once no_names wide_image
           (widgets_with "#0a141e" false true) (10, 20, 30));
    [reflexivity | reflexivity | byte_facts | byte_facts].
Defined.

Lemma detected_color_becomes_transparent_witness :
  exists out w',
    add_transparency no_names corner_10_20_30 (widgets_with "#FFFFFF" true true)
    = (Ok (ImageRGBA out), w')
    /\ Pil.getpixel out 0 0 = Some (10, 20, 30, 0)
    /\ forall x y a',
         Pil.getpixel (Pil.convert_RGBA corner_10_20_30) x y = Some (10, 20, 30, a') ->
         Pil.getpixel out x y = Some (10, 20, 30, 0).
Proof.
  apply (detected_color_becomes_transparent no_names corner_10_20_30
           (widgets_with "#FFFFFF" true true) 10 20 30 7);
    [reflexivity | byte_facts | reflexivity].
Defined.

Lemma detect_again_changes_nothing_witness :
  exists out w' w'',
    add_transparency no_names corner_10_20_30 (widgets_with "#FFFFFF" true true) = (Ok out, w')
    /\ add_transparency no_names out w' = (Ok out, w'')
    /\ color_picker_value w'' = color_picker_value w'
    /\ List.length (notifications w'') = S (List.length (notifications w'))
    /\ List.length (notifications w')
       = S (List.length (notifications (widgets_with "#FFFFFF" true true))).
Proof.
  apply (detect_again_changes_nothing no_names corner_10_20_30
           (widgets_with "#FFFFFF" true true) 10 20 30 7);
    [reflexivity | byte_facts | reflexivity].
Defined.

Lemma detect_on_empty_image_raises_witness :
  exists msg,
    add_transparency no_names empty_image (widgets_with "#FFFFFF" true true)
    = (Raise (IndexError msg), widgets_with "#FFFFFF" true true).
Proof.
  apply (detect_on_empty_image_raises no_names empty_image
           (widgets_with "#FFFFFF" true true)); reflexivity.
Defined.

Lemma failed_download_changes_nothing_witness :
  example_run (app_with "http://example.org/page.html" true initial_widgets)
  = set_loading false
      (notify_error "cannot identify image file"
         (app_with "http://example.org/page.html" true initial_widgets)).
Proof.
  apply (failed_download_changes_nothing nearest no_names example_urlopen example_open
           example_save (app_with "http://example.org/page.html" true initial_widgets)).
  right. exists [Byte.x3c; Byte.x68]. split; reflexivity.
Defined.

Lemma failed_squarify_updates_input_only_witness :
  input_png_object
    (example_run (app_with "http://example.org/wide.png" false
                    (set_size_spinner_value 0 initial_widgets)))
  = Some wide_image
  /\ output_png_object
       (example_run (app_with "http://example.org/wide.png" false
                       (set_size_spinner_value 0 initial_widgets)))
     = None.
Proof.
  destruct (failed_squarify_updates_input_only nearest no_names example_urlopen
              example_open example_save
              (app_with "http://example.org/wide.png" false
                 (set_size_spinner_value 0 initial_widgets))
              [Byte.x89; Byte.x50; Byte.x4e; Byte.x47] wide_image 3 2)
    as (Hin & Hout & _);
    [reflexivity | reflexivity | reflexivity | reflexivity | reflexivity | cbn; lia |].
  split; [exact Hin | exact Hout].
Defined.

Lemma detected_corner_is_transparent_in_output_witness :
  exists out,
    output_png_object
      (example_run (app_with "http://example.org/wide.png" true
                      (widgets_with "#FFFFFF" true false)))
    = Some (ImageRGBA out)
    /\ input_png_object
         (example_run (app_with "http://example.org/wide.png" true
                         (widgets_with "#FFFFFF" true false)))
       = Some wide_image
    /\ Pil.buffer_size out = (3, 3)
    /\ (exists p, Pil.getpixel out 0 0 = Some p /\ snd p = 0)
    /\ color_picker_value
         (widgets (example_run (app_with "http://example.org/wide.png" true
                                  (widgets_with "#FFFFFF" true false))))
       = hex_color 10 20 30.
Proof.
  apply (detected_corner_is_transparent_in_output nearest no_names example_urlopen
           example_open example_save
           (app_with "http://example.org/wide.png" true (widgets_with "#FFFFFF" true false))
           [Byte.x89; Byte.x50; Byte.x4e; Byte.x47] wide_image 10 20 30 7 3 2);
    [reflexivity | reflexivity | reflexivity | reflexivity | byte_facts
    | reflexivity | reflexivity | cbn; lia].
Defined.

Lemma picker_disabled_without_transparency_witness :
  color_picker_disabled
    (fire_all [CheckTransparency true; CheckDetect true; TypeUrl "x";
               CheckTransparency false] initial_app)
  = true.
Proof.
  apply (picker_disabled_without_transparency
           [CheckTransparency true; CheckDetect true; TypeUrl "x"; CheckTransparency false]);
    [cbn; repeat split; reflexivity | reflexivity].
Defined.

Lemma detected_hex_reads_back_witness :
  String.length (hex_color 10 20 30) = 7%nat
  /\ getrgb no_names (hex_color 10 20 30) = Ok (10, 20, 30)
  /\ getrgb no_names (Str.upper (hex_color 10 20 30)) = Ok (10, 20, 30).
Proof.
  apply (detected_hex_reads_back no_names 10 20 30); unfold is_byte; lia.
Defined.

Lemma fade_alpha_within_one_witness :
  exists alpha,
    quantize_pixel (fade_pixel (scale_color (34, 34, 34)) (normalize_pixel (1, 1, 1, 255)))
    = (1, 1, 1, alpha)
    /\ (alpha = 33 \/ (alpha = 33 - 1 /\ 0 < 33)).
Proof.
  apply (fade_alpha_within_one (34, 34, 34) (1, 1, 1, 255)); byte_facts.
Defined.
